(** * urllib3 connection layer: deadline-enforcing socket file and
      HTTP(S) connections

    Shallow embedding of [requests/packages/urllib3/connection.py].

    Python objects are mutable and exceptions do not roll mutations back, so
    every method is a function from a state to an outcome *and* a state: the
    state reached when an exception is raised is kept.

    Instants and durations ([time.time()], [socket.gettimeout()]) are Python
    floats counting seconds; they are modelled as exact numbers, integers
    counting ticks of the clock.  Only their order, their difference and
    [max] are used by the code. *)

From Stdlib Require Import ZArith List String Bool Lia.
Import ListNotations.
Open Scope Z_scope.

(** ** Exceptions and outcomes *)

(** The timeout values an [httplib] connection can hold:
    [socket._GLOBAL_DEFAULT_TIMEOUT], [None], or a number. *)
Inductive timeout_value : Type :=
| GLOBAL_DEFAULT_TIMEOUT
| NoTimeout
| Seconds (t : Z).

(** The exception kinds that flow through this module.  [SocketTimeout] is
    [socket.timeout]; [SocketError] is any other [socket.error] (refused,
    reset, name resolution, ...), identified by its errno. *)
Inductive exn : Type :=
| SocketTimeout
| SocketError (errno : Z)
| TypeError
| AttributeError (attribute : string)
| ConnectTimeoutError (host : string) (timeout : timeout_value)
| SSLError (reason : string)
| CertificateError (reason : string)
| HTTPException (reason : string).

Inductive res (A : Type) : Type :=
| Ok (a : A)
| Raise (e : exn).
Arguments Ok {A} a.
Arguments Raise {A} e.

(** State-and-exception monad: the state survives a raise. *)
Definition M (S A : Type) : Type := S -> res A * S.

Definition ret {S A : Type} (a : A) : M S A := fun s => (Ok a, s).

Definition raise {S A : Type} (e : exn) : M S A := fun s => (Raise e, s).

Definition bind {S A B : Type} (m : M S A) (k : A -> M S B) : M S B :=
  fun s =>
    match m s with
    | (Ok a, s') => k a s'
    | (Raise e, s') => (Raise e, s')
    end.

Definition modify {S : Type} (f : S -> S) : M S unit := fun s => (Ok tt, f s).

(** A pure helper that may raise. *)
Definition lift {S A : Type} (r : res A) : M S A := fun s => (r, s).

Declare Scope py_scope.
Delimit Scope py_scope with py.
Notation "x <- m ;; k" := (bind m (fun x => k))
  (at level 61, m at next level, right associativity) : py_scope.
Notation "m ;; k" := (bind m (fun _ => k))
  (at level 61, right associativity) : py_scope.
Open Scope py_scope.

(** Truth value of a Python string-or-None: [None] and [''] are false. *)
Definition truthy (o : option string) : bool :=
  match o with
  | None => false
  | Some s => negb (String.eqb s EmptyString)
  end.

(** ** TimedSocketFile *)

Module TimedSocketFile.

(** The low-level socket [fp._sock]: what [gettimeout()] answers and whether
    [close()] has been called on it. *)
Record socket : Type := mk_socket {
  gettimeout : option Z;
  sock_closed : bool
}.

Definition settimeout (v : Z) (s : socket) : socket :=
  {| gettimeout := Some v; sock_closed := sock_closed s |}.

Definition sock_close (s : socket) : socket :=
  {| gettimeout := gettimeout s; sock_closed := true |}.

(** Attributes and methods of the wrapped file object [self.fp]. *)
Inductive attribute : Type :=
| a_bufsize | a_closed | a_default_bufsize | a_fileno | a_mode | a_name
| a_softspace.

Inductive method : Type :=
| m_close | m_flush | m_next
| m_read | m_readline | m_readlines | m_write | m_writelines.

(** The object itself: [self.timeout] and [self._start_response].  [self.fp]
    and [self.sock] are references into the world below. *)
Record t : Type := mk {
  timeout : option Z;
  _start_response : option Z
}.

(** What the object can reach: the clock read by [time.time()], the socket
    shared between [self.sock] and [self.fp], and the wrapped stream's own
    state. *)
Record world (fpstate : Type) : Type := mk_world {
  clock : Z;
  sock : socket;
  fp : fpstate
}.
Arguments mk_world {fpstate} _ _ _.
Arguments clock {fpstate} _.
Arguments sock {fpstate} _.
Arguments fp {fpstate} _.

(** The wrapped buffered stream is a collaborator.  Its state, the arguments
    it takes and the values it returns are left open.  Calling one of its
    methods may block (advance the clock), touch the socket, change its
    buffers, return or raise. *)
Class File : Type := {
  fpstate : Type;
  args : Type;
  value : Type;
  fp_call : method -> args -> world fpstate -> res value * world fpstate;
  fp_getattr : attribute -> world fpstate -> value;
  (** the empty argument list of [self.fp.close()], [flush()], [next()] *)
  no_args : args
}.

Section Members.

Context {F : File}.

Definition state : Type := (t * world fpstate)%type.

(** What a member of [TimedSocketFile] hands back. *)
Inductive retval : Type :=
| PyNone
| Value (v : value)
| BoundMethod (a : attribute).

Definition time_time : M state Z := fun s => (Ok (clock (snd s)), s).

Definition on_sock (f : socket -> socket) : M state unit :=
  modify (fun s : state =>
    (fst s, {| clock := clock (snd s); sock := f (sock (snd s));
               fp := fp (snd s) |})).

Definition self : M state t := fun s => (Ok (fst s), s).

(** [self.fp.<m>] called with the caller's arguments. *)
Definition call_fp (m : method) (a : args) : M state value :=
  fun s => let (r, w') := fp_call m a (snd s) in (r, (fst s, w')).

(** [self.fp.<a>] *)
Definition getattr_fp (a : attribute) : M state retval :=
  fun s => (Ok (Value (fp_getattr a (snd s))), s).

(** [__init__]: [self.timeout = self.sock.gettimeout()],
    [self._start_response = None]. *)
Definition __init__ (w : world fpstate) : state :=
  ({| timeout := gettimeout (sock w); _start_response := None |}, w).

(** [start_response]: [self._start_response = time.time()]. *)
Definition start_response : M state retval :=
  now <- time_time ;;
  modify (fun s : state =>
    ({| timeout := timeout (fst s); _start_response := Some now |}, snd s)) ;;
  ret PyNone.

(** [_validate_ttl].  [time.time() - self._start_response] is a float minus
    [None] when no start was recorded: a [TypeError]. *)
Definition _validate_ttl : M state unit :=
  o <- self ;;
  match timeout o with
  | None => ret tt
  | Some T =>
      now <- time_time ;;
      match _start_response o with
      | None => raise TypeError
      | Some start =>
          let elapsed := now - start in
          if elapsed >? T
          then on_sock sock_close ;; raise SocketTimeout
          else on_sock (settimeout (Z.max (T - elapsed) 0))
      end
  end.

Definition bufsize : M state retval := getattr_fp a_bufsize.

Definition close : M state retval :=
  call_fp m_close no_args ;; ret PyNone.

Definition closed : M state retval := getattr_fp a_closed.

Definition default_bufsize : M state retval := getattr_fp a_default_bufsize.

(** [fileno] returns [self.fp.fileno] itself, the bound method, uncalled. *)
Definition fileno : M state retval := ret (BoundMethod a_fileno).

Definition flush : M state retval :=
  v <- call_fp m_flush no_args ;; ret (Value v).

Definition mode : M state retval := getattr_fp a_mode.

Definition name : M state retval := getattr_fp a_name.

Definition next : M state retval :=
  v <- call_fp m_next no_args ;; ret (Value v).

Definition read (a : args) : M state retval :=
  _validate_ttl ;; v <- call_fp m_read a ;; ret (Value v).

Definition readline (a : args) : M state retval :=
  _validate_ttl ;; v <- call_fp m_readline a ;; ret (Value v).

Definition readlines (a : args) : M state retval :=
  _validate_ttl ;; v <- call_fp m_readlines a ;; ret (Value v).

Definition softspace : M state retval := getattr_fp a_softspace.

Definition write (a : args) : M state retval :=
  _validate_ttl ;; v <- call_fp m_write a ;; ret (Value v).

Definition writelines (a : args) : M state retval :=
  _validate_ttl ;; v <- call_fp m_writelines a ;; ret (Value v).

(** The five members that check the deadline, by name. *)
Inductive io : Type := Read | Readline | Readlines | Write | Writelines.

Definition io_method (op : io) : method :=
  match op with
  | Read => m_read | Readline => m_readline | Readlines => m_readlines
  | Write => m_write | Writelines => m_writelines
  end.

Definition io_call (op : io) : args -> M state retval :=
  match op with
  | Read => read | Readline => readline | Readlines => readlines
  | Write => write | Writelines => writelines
  end.

(** Any use a caller can make of the object. *)
Inductive use : Type :=
| u_start_response
| u_bufsize | u_close | u_closed | u_default_bufsize | u_fileno | u_flush
| u_mode | u_name | u_next | u_softspace
| u_io (op : io) (a : args).

Definition perform (u : use) : M state retval :=
  match u with
  | u_start_response => start_response
  | u_bufsize => bufsize
  | u_close => close
  | u_closed => closed
  | u_default_bufsize => default_bufsize
  | u_fileno => fileno
  | u_flush => flush
  | u_mode => mode
  | u_name => name
  | u_next => next
  | u_softspace => softspace
  | u_io op a => io_call op a
  end.

(** A caller's history: uses one after the other, each outcome (value or
    exception) observed and dropped, the state carried on. *)
Fixpoint history (us : list use) (s : state) : state :=
  match us with
  | [] => s
  | u :: us' => history us' (snd (perform u s))
  end.

(** *** Vocabulary for the statements *)

(** The world once [self.sock.close()] has run. *)
Definition after_close (w : world fpstate) : world fpstate :=
  {| clock := clock w; sock := sock_close (sock w); fp := fp w |}.

(** The world once [self.sock.settimeout(v)] has run. *)
Definition after_settimeout (v : Z) (w : world fpstate) : world fpstate :=
  {| clock := clock w; sock := settimeout v (sock w); fp := fp w |}.

(** What a deadline-checked member does once the check has let it through:
    the wrapped stream's method, its outcome handed on as it is. *)
Definition delegated (op : io) (a : args) (o : t) (w : world fpstate)
  : res retval * state :=
  match fp_call (io_method op) a w with
  | (Ok v, w') => (Ok (Value v), (o, w'))
  | (Raise e, w') => (Raise e, (o, w'))
  end.

(** *** TimedHTTPResponse and the callers of the object *)

(** A program that uses the object through its members and acts on what
    they hand back: what the response parser of the superclass is to
    [self.fp].  It ends by returning or by raising. *)
Inductive client : Type :=
| Finish (r : res unit)
| Call (u : use) (k : res retval -> client).

Fixpoint run (p : client) (s : state) : res unit * state :=
  match p with
  | Finish r => (r, s)
  | Call u k => let (r, s') := perform u s in run (k r) s'
  end.

(** A program that knows nothing of [start_response], as the superclass
    does not. *)
Inductive plain : client -> Prop :=
| plain_Finish (r : res unit) : plain (Finish r)
| plain_Call (u : use) (k : res retval -> client) :
    u <> u_start_response -> (forall r, plain (k r)) -> plain (Call u k).

(** [TimedHTTPResponse.__init__]: the superclass opens [self.fp] over the
    socket, and [self.fp] is rebound to a [TimedSocketFile] around it. *)
Definition TimedHTTPResponse__init__ (w : world fpstate) : state :=
  __init__ w.

(** [TimedHTTPResponse.begin]: [self.fp.start_response()], then the
    superclass's [begin], a program over [self.fp]. *)
Definition begin (super_begin : client) : M state unit :=
  start_response ;; run super_begin.

(** The uses a list of reads and writes stands for. *)
Definition io_uses (ios : list (io * args)) : list use :=
  map (fun x => u_io (fst x) (snd x)) ios.

End Members.
End TimedSocketFile.

(** ** HTTPConnection, HTTPSConnection, VerifiedHTTPSConnection *)

Module Connection.

Open Scope string_scope.

Definition address : Type := (string * Z)%type.

(** A socket option: (level, optname, value). *)
Definition sockopt : Type := (Z * Z * Z)%type.

Definition IPPROTO_TCP : Z := 6.
Definition TCP_NODELAY : Z := 1.

(** [ssl.CERT_NONE], [ssl.CERT_OPTIONAL], [ssl.CERT_REQUIRED]. *)
Definition CERT_NONE : Z := 0.
Definition CERT_OPTIONAL : Z := 1.
Definition CERT_REQUIRED : Z := 2.

Definition port_by_scheme (scheme : string) : option Z :=
  if String.eqb scheme "http" then Some 80
  else if String.eqb scheme "https" then Some 443
  else None.

(** What [cert_reqs] and [ssl_version] may be set to: [None], a symbolic
    name, or a raw protocol constant. *)
Inductive setting : Type :=
| s_None
| s_Name (n : string)
| s_Const (z : Z).

(** What [assert_hostname] may be set to: [None], [False], or a name. *)
Inductive hostname_assertion : Type :=
| ah_None
| ah_False
| ah_Name (h : string).

(** The socket [create_connection] hands back. *)
Record raw_socket : Type := mk_raw {
  peer : address;
  sock_timeout : timeout_value;
  bound_to : option address;
  applied_options : list sockopt
}.

(** A decoded peer certificate, [getpeercert()]: the names a hostname is
    matched against. *)
Record certificate : Type := mk_cert {
  subject : list string;
  subjectAltName : list string
}.

(** The socket a TLS wrap hands back, with what its [getpeercert] answers,
    decoded and in binary form. *)
Record ssl_socket : Type := mk_ssl {
  wrapped : raw_socket;
  getpeercert : certificate;
  getpeercert_binary : string
}.

Inductive transport : Type :=
| Plain (s : raw_socket)
| Tls (s : ssl_socket).

(** The three classes: [HTTPConnection], [HTTPSConnection] as first defined
    (kept as [UnverifiedHTTPSConnection]) and [VerifiedHTTPSConnection]. *)
Inductive class : Type :=
| HTTP
| UnverifiedHTTPS
| VerifiedHTTPS.

(** The connection object.  [assert_hostname] and [assert_fingerprint] are
    only ever bound by [set_cert]: [None] there is an attribute that does
    not exist yet. *)
Record connection : Type := mk_connection {
  cls : class;
  host : string;
  port : Z;
  timeout : timeout_value;
  source_address : option address;
  socket_options : option (list sockopt);
  _tunnel_host : option string;
  auto_open : Z;
  sock : option transport;
  is_verified : bool;
  key_file : option string;
  cert_file : option string;
  cert_reqs : setting;
  ca_certs : option string;
  ssl_version : setting;
  assert_hostname : option hostname_assertion;
  assert_fingerprint : option (option string)
}.

(** Every call that leaves this module, with its arguments; the two
    certificate checks also record whether they passed. *)
Inductive event : Type :=
| create_connection_called (a : address) (t : timeout_value)
    (source : option address) (options : option (list sockopt))
| tunnel_called (over : option transport) (target : option string)
| wrap_socket_called (s : raw_socket) (key cert : option string)
| ssl_wrap_socket_called (s : raw_socket) (key cert : option string)
    (reqs : Z) (ca : option string) (server_hostname : string) (version : Z)
| assert_fingerprint_called (binary : string) (fingerprint : string)
    (passed : bool)
| match_hostname_called (c : certificate) (hostname : string)
    (passed : bool).

(** The collaborators of the module: the network behind
    [util.connection.create_connection], [httplib]'s [_tunnel],
    [ssl.wrap_socket], and the helpers of [util.ssl_] and
    [packages.ssl_match_hostname].  [env] is the state of the outside world
    (network, proxy, peer).  A TLS wrap answers with the peer's certificate
    in both forms. *)
Class Collaborators : Type := {
  env : Type;
  tcp_connect :
    address -> timeout_value -> option address -> env -> res unit * env;
  httplib_tunnel :
    option transport -> option string -> env -> res unit * env;
  (** what [_tunnel] leaves in [self.host] and [self.port]: an older
      [httplib] rebinds them to the tunnel target through
      [_set_hostport], a newer one leaves them *)
  tunnel_hostport : address -> option string -> env -> address;
  (** whether a [_tunnel] that raises has called [self.close()] first, as
      it does on an answer other than 200: that unbinds [self.sock] *)
  tunnel_closes : option transport -> option string -> env -> bool;
  ssl_wrap :
    raw_socket -> option string -> option string -> env ->
    res (certificate * string) * env;
  util_ssl_wrap :
    raw_socket -> option string -> option string -> Z -> option string ->
    string -> Z -> env -> res (certificate * string) * env;
  resolve_cert_reqs : setting -> res Z;
  resolve_ssl_version : setting -> res Z;
  (** the verdicts of [assert_fingerprint] and [match_hostname]: they
      return, or raise on a mismatch *)
  fingerprint_check : string -> string -> res unit;
  hostname_check : certificate -> string -> res unit
}.

Definition is_ok {A : Type} (r : res A) : bool :=
  match r with Ok _ => true | Raise _ => false end.

Section Methods.

Context {X : Collaborators}.

Record world : Type := mk_world {
  outside : env;
  trace : list event
}.

Definition state : Type := (connection * world)%type.

Definition self : M state connection := fun s => (Ok (fst s), s).

Definition setattr (f : connection -> connection) : M state unit :=
  modify (fun s : state => (f (fst s), snd s)).

Definition log (e : event) : M state unit :=
  modify (fun s : state =>
    (fst s, {| outside := outside (snd s); trace := trace (snd s) ++ [e] |})).

(** Run a collaborator on the outside world. *)
Definition extern {A : Type} (f : env -> res A * env) : M state A :=
  fun s =>
    let (r, e') := f (outside (snd s)) in
    (r, (fst s, {| outside := e'; trace := trace (snd s) |})).

(** [try: body / except socket.timeout: handler]; any other exception goes
    through untouched. *)
Definition try_except_SocketTimeout {A : Type} (body handler : M state A)
  : M state A :=
  fun s =>
    match body s with
    | (Raise SocketTimeout, s') => handler s'
    | other => other
    end.

Definition set_sock (v : option transport) (c : connection) : connection :=
  mk_connection (cls c) (host c) (port c) (timeout c) (source_address c)
    (socket_options c) (_tunnel_host c) (auto_open c) v (is_verified c)
    (key_file c) (cert_file c) (cert_reqs c) (ca_certs c) (ssl_version c)
    (assert_hostname c) (assert_fingerprint c).

Definition set_auto_open (v : Z) (c : connection) : connection :=
  mk_connection (cls c) (host c) (port c) (timeout c) (source_address c)
    (socket_options c) (_tunnel_host c) v (sock c) (is_verified c)
    (key_file c) (cert_file c) (cert_reqs c) (ca_certs c) (ssl_version c)
    (assert_hostname c) (assert_fingerprint c).

Definition set_is_verified (v : bool) (c : connection) : connection :=
  mk_connection (cls c) (host c) (port c) (timeout c) (source_address c)
    (socket_options c) (_tunnel_host c) (auto_open c) (sock c) v
    (key_file c) (cert_file c) (cert_reqs c) (ca_certs c) (ssl_version c)
    (assert_hostname c) (assert_fingerprint c).

(** [self.<name>] for an attribute that exists only once it was bound. *)
Definition getattr {A : Type} (name : string) (f : connection -> option A)
  : M state A :=
  c <- self ;;
  match f c with
  | Some a => ret a
  | None => raise (AttributeError name)
  end.

(** [default_port]: [port_by_scheme['http']] for [HTTPConnection],
    [port_by_scheme['https']] for the two HTTPS classes. *)
Definition default_port (k : class) : Z :=
  let scheme :=
    match k with
    | HTTP => "http"
    | UnverifiedHTTPS | VerifiedHTTPS => "https"
    end in
  match port_by_scheme scheme with Some p => p | None => 0 end.

(** [default_socket_options]: disable Nagle's algorithm. *)
Definition default_socket_options : list sockopt :=
  [(IPPROTO_TCP, TCP_NODELAY, 1)].

(** [HTTPConnection.__init__].  [kw_socket_options] is the keyword argument:
    [None] when the caller did not give it, else the value given, which is
    [None] or a list.  The superclass constructor binds host, port and
    timeout, leaves the connection without a socket, reusable
    ([auto_open = 1]) and without a tunnel. *)
Definition __init__ (k : class) (host_ : string) (port_ : option Z)
    (timeout_ : timeout_value) (kw_source_address : option address)
    (kw_socket_options : option (option (list sockopt))) : connection :=
  {| cls := k;
     host := host_;
     port := match port_ with Some p => p | None => default_port k end;
     timeout := timeout_;
     source_address := kw_source_address;
     socket_options :=
       match kw_socket_options with
       | Some given => given
       | None => Some default_socket_options
       end;
     _tunnel_host := None;
     auto_open := 1;
     sock := None;
     is_verified := false;
     key_file := None;
     cert_file := None;
     cert_reqs := s_None;
     ca_certs := None;
     ssl_version := s_None;
     assert_hostname := None;
     assert_fingerprint := None |}.

(** [HTTPSConnection.__init__]: the same, then the key and certificate. *)
Definition HTTPS__init__ (k : class) (host_ : string) (port_ : option Z)
    (key_file_ cert_file_ : option string) (timeout_ : timeout_value)
    (kw_source_address : option address)
    (kw_socket_options : option (option (list sockopt))) : connection :=
  let c := __init__ k host_ port_ timeout_ kw_source_address
             kw_socket_options in
  mk_connection (cls c) (host c) (port c) (timeout c) (source_address c)
    (socket_options c) (_tunnel_host c) (auto_open c) (sock c)
    (is_verified c) key_file_ cert_file_ (cert_reqs c) (ca_certs c)
    (ssl_version c) (assert_hostname c) (assert_fingerprint c).

(** [VerifiedHTTPSConnection.set_cert] *)
Definition set_cert (key_file_ cert_file_ : option string)
    (cert_reqs_ : setting) (ca_certs_ : option string)
    (assert_hostname_ : hostname_assertion)
    (assert_fingerprint_ : option string) (c : connection) : connection :=
  mk_connection (cls c) (host c) (port c) (timeout c) (source_address c)
    (socket_options c) (_tunnel_host c) (auto_open c) (sock c)
    (is_verified c) key_file_ cert_file_ cert_reqs_ ca_certs_
    (ssl_version c) (Some assert_hostname_) (Some assert_fingerprint_).

(** Modelled from the spec: [util.connection.create_connection] is not among
    the sources.  It "opens a TCP socket to (host, port) honoring: configured
    connect timeout, optional source address bind, and a list of socket
    options applied": the options it is handed are applied in the order
    given, and none are applied when it is handed none.  Whether the connect
    succeeds, times out ([socket.timeout]) or fails otherwise is the
    network's answer. *)
Definition create_connection (a : address) (t : timeout_value)
    (source_address_ : option address)
    (socket_options_ : option (list sockopt)) : M state raw_socket :=
  log (create_connection_called a t source_address_ socket_options_) ;;
  extern (tcp_connect a t source_address_) ;;
  ret {| peer := a;
         sock_timeout := t;
         bound_to := source_address_;
         applied_options :=
           match socket_options_ with Some l => l | None => [] end |}.

(** An entry of [extra_kw] for a list-valued attribute: the keyword is
    passed only when the attribute is true, and [None] and the empty list
    are not. *)
Definition kw_if_true {A : Type} (v : option (list A)) : option (list A) :=
  match v with
  | Some (x :: l) => Some (x :: l)
  | Some [] | None => None
  end.

(** [_new_conn].  [source_address] is [None] or an address pair, which is
    true, so its keyword is passed exactly when it is bound. *)
Definition _new_conn : M state raw_socket :=
  c <- self ;;
  try_except_SocketTimeout
    (create_connection (host c, port c) (timeout c)
       (source_address c) (kw_if_true (socket_options c)))
    (c' <- self ;; raise (ConnectTimeoutError (host c') (timeout c'))).

Definition set_hostport (a : address) (c : connection) : connection :=
  mk_connection (cls c) (fst a) (snd a) (timeout c) (source_address c)
    (socket_options c) (_tunnel_host c) (auto_open c) (sock c)
    (is_verified c) (key_file c) (cert_file c) (cert_reqs c) (ca_certs c)
    (ssl_version c) (assert_hostname c) (assert_fingerprint c).

(** The outside world as it stands. *)
Definition outside_world : M state env :=
  fun s => (Ok (outside (snd s)), s).

(** [body], and when it raises, [cleanup] before the exception goes on. *)
Definition try_cleanup {A : Type} (body : M state A) (cleanup : M state unit)
  : M state A :=
  fun s =>
    match body s with
    | (Raise e, s') => (Raise e, snd (cleanup s'))
    | other => other
    end.

(** [self._tunnel()], of [httplib]: the CONNECT handshake over
    [self.sock].  Besides talking to the proxy it may rebind [self.host]
    and [self.port], and when it raises it may have closed the connection,
    which leaves [self.sock] as [None]. *)
Definition _tunnel : M state unit :=
  c <- self ;;
  log (tunnel_called (sock c) (_tunnel_host c)) ;;
  e <- outside_world ;;
  setattr (set_hostport (tunnel_hostport (host c, port c) (_tunnel_host c)
                           e)) ;;
  try_cleanup
    (extern (httplib_tunnel (sock c) (_tunnel_host c)))
    (if tunnel_closes (sock c) (_tunnel_host c) e
     then setattr (set_sock None)
     else ret tt).

(** [_prepare_conn] *)
Definition _prepare_conn (conn : raw_socket) : M state unit :=
  setattr (set_sock (Some (Plain conn))) ;;
  c <- self ;;
  if truthy (_tunnel_host c)
  then _tunnel ;; setattr (set_auto_open 0)
  else ret tt.

(** [HTTPConnection.connect] *)
Definition HTTPConnection_connect : M state unit :=
  conn <- _new_conn ;;
  _prepare_conn conn.

(** [ssl.wrap_socket(conn, key_file, cert_file)] *)
Definition wrap_socket (conn : raw_socket) (key cert : option string)
  : M state ssl_socket :=
  log (wrap_socket_called conn key cert) ;;
  p <- extern (ssl_wrap conn key cert) ;;
  ret {| wrapped := conn; getpeercert := fst p;
         getpeercert_binary := snd p |}.

(** [HTTPSConnection.connect], the unverified variant. *)
Definition HTTPSConnection_connect : M state unit :=
  conn <- _new_conn ;;
  _prepare_conn conn ;;
  c <- self ;;
  s <- wrap_socket conn (key_file c) (cert_file c) ;;
  setattr (set_sock (Some (Tls s))).

(** [util.ssl_.ssl_wrap_socket] *)
Definition ssl_wrap_socket (conn : raw_socket) (key cert : option string)
    (reqs : Z) (ca : option string) (server_hostname : string) (version : Z)
  : M state ssl_socket :=
  log (ssl_wrap_socket_called conn key cert reqs ca server_hostname
         version) ;;
  p <- extern (util_ssl_wrap conn key cert reqs ca server_hostname
                 version) ;;
  ret {| wrapped := conn; getpeercert := fst p;
         getpeercert_binary := snd p |}.

(** [util.ssl_.assert_fingerprint(cert, fingerprint)] *)
Definition call_assert_fingerprint (binary fingerprint : string)
  : M state unit :=
  let r := fingerprint_check binary fingerprint in
  log (assert_fingerprint_called binary fingerprint (is_ok r)) ;;
  lift r.

(** [match_hostname(cert, hostname)] *)
Definition match_hostname (cert : certificate) (hostname : string)
  : M state unit :=
  let r := hostname_check cert hostname in
  log (match_hostname_called cert hostname (is_ok r)) ;;
  lift r.

(** [self.assert_hostname or hostname], once [assert_hostname] is known not
    to be [False]: a non-empty name wins, [None] and [''] give way. *)
Definition or_hostname (a : hostname_assertion) (hostname : string)
  : string :=
  match a with
  | ah_Name h => if String.eqb h "" then hostname else h
  | ah_None | ah_False => hostname
  end.

(** [self.sock] as the TLS socket it is after the wrap. *)
Definition self_sock : M state ssl_socket :=
  c <- self ;;
  match sock c with
  | Some (Tls s) => ret s
  | Some (Plain _) | None => raise (AttributeError "getpeercert")
  end.

(** [VerifiedHTTPSConnection.connect], first part: the TCP connect, the
    resolution of the settings, the tunnel and the TLS wrap.  Hands on
    [resolved_cert_reqs] and [hostname]. *)
Definition connect_wrap : M state (Z * string) :=
  conn <- _new_conn ;;
  c <- self ;;
  resolved_cert_reqs <- lift (resolve_cert_reqs (cert_reqs c)) ;;
  c <- self ;;
  resolved_ssl_version <- lift (resolve_ssl_version (ssl_version c)) ;;
  c <- self ;;
  let hostname := host c in
  hostname <-
    (if truthy (_tunnel_host c)
     then
       setattr (set_sock (Some (Plain conn))) ;;
       _tunnel ;;
       setattr (set_auto_open 0) ;;
       c <- self ;;
       ret (match _tunnel_host c with Some h => h | None => hostname end)
     else ret hostname) ;;
  c <- self ;;
  s <- ssl_wrap_socket conn (key_file c) (cert_file c) resolved_cert_reqs
         (ca_certs c) hostname resolved_ssl_version ;;
  setattr (set_sock (Some (Tls s))) ;;
  ret (resolved_cert_reqs, hostname).

(** Second part: the checks made on the peer certificate. *)
Definition connect_check (resolved_cert_reqs : Z) (hostname : string)
  : M state unit :=
  if negb (resolved_cert_reqs =? CERT_NONE)%Z
  then
    fingerprint <- getattr "assert_fingerprint" assert_fingerprint ;;
    if truthy fingerprint
    then
      s <- self_sock ;;
      call_assert_fingerprint (getpeercert_binary s)
        (match fingerprint with Some f => f | None => "" end)
    else
      a <- getattr "assert_hostname" assert_hostname ;;
      match a with
      | ah_False => ret tt
      | ah_None | ah_Name _ =>
          s <- self_sock ;;
          match_hostname (getpeercert s) (or_hostname a hostname)
      end
  else ret tt.

(** [VerifiedHTTPSConnection.connect] *)
Definition VerifiedHTTPSConnection_connect : M state unit :=
  p <- connect_wrap ;;
  connect_check (fst p) (snd p) ;;
  setattr (set_is_verified (fst p =? CERT_REQUIRED)%Z).

(** [connect()], resolved on the class of the object. *)
Definition connect : M state unit :=
  c <- self ;;
  match cls c with
  | HTTP => HTTPConnection_connect
  | UnverifiedHTTPS => HTTPSConnection_connect
  | VerifiedHTTPS => VerifiedHTTPSConnection_connect
  end.

(** *** Vocabulary for the statements *)

(** The world once [create_connection] has been called from [c]. *)
Definition after_create (c : connection) (w : world) : world :=
  {| outside := snd (tcp_connect (host c, port c) (timeout c)
                       (source_address c) (outside w));
     trace := trace w ++
       [create_connection_called (host c, port c) (timeout c)
          (source_address c) (kw_if_true (socket_options c))] |}.

(** The socket a successful [create_connection] called from [c] returns. *)
Definition created (c : connection) : raw_socket :=
  {| peer := (host c, port c);
     sock_timeout := timeout c;
     bound_to := source_address c;
     applied_options :=
       match kw_if_true (socket_options c) with Some l => l | None => [] end |}.

(** [wp m s Q]: running [m] from [s] ends with an outcome and a state that
    satisfy [Q]. *)
Definition wp {A : Type} (m : M state A) (s : state)
    (Q : res A -> state -> Prop) : Prop :=
  Q (fst (m s)) (snd (m s)).

(** What [_new_conn] raises when the network raised [e]. *)
Definition connect_error (c : connection) (e : exn) : exn :=
  match e with
  | SocketTimeout => ConnectTimeoutError (host c) (timeout c)
  | _ => e
  end.

(** A check event that records a pass; other events are not checks. *)
Definition passed (e : event) : Prop :=
  match e with
  | assert_fingerprint_called _ _ p | match_hostname_called _ _ p => p = true
  | _ => True
  end.


(** The name a verified connect checks the peer against: the tunnel target
    when one is set, the connection's host otherwise. *)
Definition identity (c : connection) : string :=
  if truthy (_tunnel_host c)
  then match _tunnel_host c with Some t => t | None => host c end
  else host c.

(** How a verified connect ends once the wrap has left the object as [c1]
    in the world [w1]: the checks logged [evs] and gave [verdict]; when they
    passed, [is_verified] is bound. *)
Definition conclude (r : Z) (c1 : connection) (w1 : world)
    (verdict : res unit) (evs : list event) : res unit * state :=
  (verdict,
   (match verdict with
    | Ok _ => set_is_verified (r =? CERT_REQUIRED)%Z c1
    | Raise _ => c1
    end,
    {| outside := outside w1; trace := trace w1 ++ evs |})).


(** *** The keyword arguments of the constructor *)

(** The values a keyword argument of [HTTPConnection] can carry. *)
Inductive pyobj : Type :=
| py_None
| py_bool (b : bool)
| py_address (a : address)
| py_options (l : list sockopt)
| py_str (s : string).

(** [**kw]: keys and values, in the order given. *)
Definition kwargs : Type := list (string * pyobj).

(** [key in kw], with its value. *)
Fixpoint kw_lookup (key : string) (kw : kwargs) : option pyobj :=
  match kw with
  | [] => None
  | (k, v) :: rest => if String.eqb k key then Some v else kw_lookup key rest
  end.

Fixpoint kw_del (key : string) (kw : kwargs) : kwargs :=
  match kw with
  | [] => []
  | (k, v) :: rest =>
      if String.eqb k key then kw_del key rest else (k, v) :: kw_del key rest
  end.

(** [kw.get(key)]: [None] when the key is missing. *)
Definition kw_get (key : string) (kw : kwargs) : pyobj :=
  match kw_lookup key kw with Some v => v | None => py_None end.

(** [kw.pop(key, default)]: the value or the default, and [kw] without the
    key; a missing key is no error. *)
Definition kw_pop (key : string) (default : pyobj) (kw : kwargs)
  : pyobj * kwargs :=
  (match kw_lookup key kw with Some v => v | None => default end,
   kw_del key kw).

(** What [HTTPConnection.__init__] makes of [**kw]: the two attributes it
    binds itself and the keywords it hands to [_HTTPConnection.__init__]. *)
Record constructed : Type := mk_constructed {
  self_source_address : pyobj;
  self_socket_options : pyobj;
  super_kw : kwargs
}.

(** [HTTPConnection.__init__] on its keywords.  [PY3] is [six.PY3] and
    [before_2_7] is [sys.version_info < (2, 7)]. *)
Definition __init__kw (PY3 before_2_7 : bool) (kw : kwargs) : constructed :=
  let kw := if PY3 then snd (kw_pop "strict" py_None kw) else kw in
  let source_address_ := kw_get "source_address" kw in
  let kw :=
    if before_2_7 then snd (kw_pop "source_address" py_None kw) else kw in
  let popped :=
    kw_pop "socket_options" (py_options default_socket_options) kw in
  {| self_source_address := source_address_;
     self_socket_options := fst popped;
     super_kw := snd popped |}.

(** *** The names the module binds when it is loaded *)

Inductive class_object : Type :=
| DummyConnection
| class_of (k : class).

(** A namespace, latest binding first. *)
Definition namespace : Type := list (string * class_object).

Fixpoint name_lookup (n : string) (ns : namespace) : option class_object :=
  match ns with
  | [] => None
  | (k, v) :: rest => if String.eqb k n then Some v else name_lookup n rest
  end.

(** The class statements and assignments of the module, top to bottom.
    [ssl_imported] says whether the [try] around [import ssl] ran through;
    the assignment [HTTPSConnection = DummyConnection] is its first
    statement and runs either way. *)
Definition load_module (ssl_imported : bool) : namespace :=
  let ns := [("DummyConnection", DummyConnection)] in
  let ns := ("HTTPSConnection", DummyConnection) :: ns in
  let ns := ("HTTPConnection", class_of HTTP) :: ns in
  let ns := ("HTTPSConnection", class_of UnverifiedHTTPS) :: ns in
  let ns := ("VerifiedHTTPSConnection", class_of VerifiedHTTPS) :: ns in
  if ssl_imported
  then
    match name_lookup "HTTPSConnection" ns with
    | Some v =>
        ("HTTPSConnection", class_of VerifiedHTTPS)
        :: ("UnverifiedHTTPSConnection", v) :: ns
    | None => ns
    end
  else ns.

(** *** More vocabulary for the statements *)

(** [c'] has every setting of [c] that [connect] reads and no collaborator
    can rebind: all attributes but [sock], [auto_open], [is_verified], and
    [host] and [port], which are [_tunnel]'s to rebind. *)
Definition same_settings (c c' : connection) : Prop :=
  cls c' = cls c
  /\ timeout c' = timeout c /\ source_address c' = source_address c
  /\ socket_options c' = socket_options c
  /\ _tunnel_host c' = _tunnel_host c
  /\ key_file c' = key_file c /\ cert_file c' = cert_file c
  /\ cert_reqs c' = cert_reqs c /\ ca_certs c' = ca_certs c
  /\ ssl_version c' = ssl_version c
  /\ assert_hostname c' = assert_hostname c
  /\ assert_fingerprint c' = assert_fingerprint c.

(** The calls an unverified HTTPS connect makes when nothing fails, in
    order. *)
Definition unverified_calls (c : connection) : list event :=
  create_connection_called (host c, port c) (timeout c) (source_address c)
    (kw_if_true (socket_options c))
  :: (if truthy (_tunnel_host c)
      then [tunnel_called (Some (Plain (created c))) (_tunnel_host c)]
      else [])
  ++ [wrap_socket_called (created c) (key_file c) (cert_file c)].

End Methods.

End Connection.

(** ** Stand-ins used to run the model on concrete inputs *)

Module Doubles.

Import TimedSocketFile.

(** A wrapped stream that answers every call after one tick with the
    argument it was given, and counts the calls it served. *)
#[local] Instance echo : File := {|
  fpstate := Z;
  args := Z;
  value := Z;
  fp_call := fun _ a w =>
    (Ok a, {| clock := clock w + 1; sock := sock w; fp := fp w + 1 |});
  fp_getattr := fun _ w => fp w;
  no_args := 0
|}.

(** A socket with a timeout of 10 ticks, at instant 100. *)
Definition timed_world : world Z :=
  {| clock := 100; sock := {| gettimeout := Some 10; sock_closed := false |};
     fp := 0 |}.

(** A blocking socket (no timeout), at instant 100. *)
Definition blocking_world : world Z :=
  {| clock := 100; sock := {| gettimeout := None; sock_closed := false |};
     fp := 0 |}.

(** The stream just built over [timed_world], before any response began. *)
Definition unstarted : TimedSocketFile.state := __init__ timed_world.

(** The same stream once [start_response] ran at instant 100, looked at
    again 4 ticks later (in time) and 11 ticks later (too late). *)
Definition started : t := {| timeout := Some 10; _start_response := Some 100 |}.

Definition at_instant (now : Z) : world Z :=
  {| clock := now; sock := {| gettimeout := Some 10; sock_closed := false |};
     fp := 0 |}.

Import Connection.
Open Scope string_scope.

(** A scripted outside world: what the network, the proxy and the peer
    answer. *)
Record script : Type := mk_script {
  tcp_answer : res unit;
  proxy_answer : res unit;
  rebinds_host : bool;
  closes_on_failure : bool;
  peer_certificate : certificate;
  peer_binary : string
}.

Definition resolve_by_name (s : setting) : res Z :=
  match s with
  | s_None => Ok CERT_NONE
  | s_Const z => Ok z
  | s_Name n =>
      if String.eqb n "CERT_REQUIRED" then Ok CERT_REQUIRED
      else if String.eqb n "CERT_OPTIONAL" then Ok CERT_OPTIONAL
      else if String.eqb n "CERT_NONE" then Ok CERT_NONE
      else Raise (AttributeError n)
  end.

#[local] Instance scripted : Collaborators := {|
  env := script;
  tcp_connect := fun _ _ _ e => (tcp_answer e, e);
  httplib_tunnel := fun _ _ e => (proxy_answer e, e);
  tunnel_hostport := fun a target e =>
    match target with
    | Some h => if rebinds_host e then (h, snd a) else a
    | None => a
    end;
  tunnel_closes := fun _ _ e => closes_on_failure e;
  ssl_wrap := fun _ _ _ e => (Ok (peer_certificate e, peer_binary e), e);
  util_ssl_wrap := fun _ _ _ _ _ _ _ e =>
    (Ok (peer_certificate e, peer_binary e), e);
  resolve_cert_reqs := resolve_by_name;
  resolve_ssl_version := resolve_by_name;
  fingerprint_check := fun binary fingerprint =>
    if String.eqb binary fingerprint then Ok tt
    else Raise (SSLError "Fingerprints did not match.");
  hostname_check := fun cert hostname =>
    if existsb (String.eqb hostname) (subjectAltName cert ++ subject cert)
    then Ok tt
    else Raise (CertificateError "hostname doesn't match")
|}.

(** A peer that presents a certificate for [example.org]. *)
Definition example_peer : certificate :=
  {| subject := ["example.org"]; subjectAltName := [] |}.

Definition reachable : Connection.world :=
  {| outside := {| tcp_answer := Ok tt; proxy_answer := Ok tt;
                   rebinds_host := false; closes_on_failure := true;
                   peer_certificate := example_peer;
                   peer_binary := "der:example.org" |};
     trace := [] |}.

Definition stalled : Connection.world :=
  {| outside := {| tcp_answer := Raise SocketTimeout; proxy_answer := Ok tt;
                   rebinds_host := false; closes_on_failure := true;
                   peer_certificate := example_peer;
                   peer_binary := "der:example.org" |};
     trace := [] |}.

Definition refusing : Connection.world :=
  {| outside := {| tcp_answer := Raise (SocketError 111);
                   proxy_answer := Ok tt;
                   rebinds_host := false; closes_on_failure := true;
                   peer_certificate := example_peer;
                   peer_binary := "der:example.org" |};
     trace := [] |}.

(** [HTTPConnection('example.org', timeout=3)] *)
Definition plain_connection : connection :=
  Connection.__init__ HTTP "example.org" None (Seconds 3) None None.

(** A verified connection to [example.org], certificate required. *)
Definition verified_connection : connection :=
  set_cert None None (s_Name "CERT_REQUIRED") (Some "/etc/ca.pem") ah_None
    None
    (HTTPS__init__ VerifiedHTTPS "example.org" None None None (Seconds 3)
       None None).

(** [HTTPConnection('example.org', timeout=3, socket_options=[])] *)
Definition bare_connection : connection :=
  Connection.__init__ HTTP "example.org" None (Seconds 3) None
    (Some (Some [])).

(** The same with keep-alive asked for: [(SOL_SOCKET, SO_KEEPALIVE, 1)]
    then [(IPPROTO_TCP, TCP_NODELAY, 0)]. *)
Definition keepalive_options : list sockopt := [(1, 9, 1); (6, 1, 0)]%Z.

(** A verified connection to [other.example] that pins the certificate by
    fingerprint: the peer's certificate names [example.org] only. *)
Definition pinned_connection : connection :=
  set_cert None None (s_Name "CERT_REQUIRED") (Some "/etc/ca.pem") ah_None
    (Some "der:example.org")
    (HTTPS__init__ VerifiedHTTPS "other.example" None None None (Seconds 3)
       None None).

(** The same connection without the pin. *)
Definition mismatched_connection : connection :=
  set_cert None None (s_Name "CERT_REQUIRED") (Some "/etc/ca.pem") ah_None
    None
    (HTTPS__init__ VerifiedHTTPS "other.example" None None None (Seconds 3)
       None None).

(** [c] after [set_tunnel(target)]: the tunnel target is bound. *)
Definition tunnelled (target : string) (c : connection) : connection :=
  mk_connection (cls c) (host c) (port c) (Connection.timeout c)
    (source_address c) (socket_options c) (Some target) (auto_open c)
    (Connection.sock c) (is_verified c) (key_file c) (cert_file c)
    (cert_reqs c) (ca_certs c) (ssl_version c) (assert_hostname c)
    (assert_fingerprint c).

(** The stream of [test_timeout.py] as its client sees it: the server
    sleeps (5 ticks for its half second) and yields one ['a'] (97), for
    ever. *)
Definition dribble : File := {|
  fpstate := Z;
  args := Z;
  value := Z;
  fp_call := fun _ _ w =>
    (Ok 97, {| TimedSocketFile.clock := TimedSocketFile.clock w + 5;
               TimedSocketFile.sock := TimedSocketFile.sock w;
               fp := fp w + 1 |});
  fp_getattr := fun _ w => fp w;
  no_args := 0
|}.

(** A parser over the echo stream that reads a status line, then, if that
    came, one header line, and hands on the first error otherwise. *)
Definition two_lines : client (F := echo) :=
  Call (u_io Readline 0)
    (fun r =>
       match r with
       | Ok _ => Call (u_io Readline 0) (fun _ => Finish (Ok tt))
       | Raise e => Finish (Raise e)
       end).

(** A verified connection on which [set_cert] was never called: the level
    is the class default [None]. *)
Definition bare_verified : connection :=
  HTTPS__init__ VerifiedHTTPS "example.org" None None None (Seconds 3)
    None None.

(** The same after [conn.cert_reqs = 'CERT_REQUIRED'], still without
    [set_cert]. *)
Definition unset_connection : connection :=
  mk_connection VerifiedHTTPS "example.org" 443 (Seconds 3) None
    (Some [(IPPROTO_TCP, TCP_NODELAY, 1%Z)]) None 1 None false None None
    (s_Name "CERT_REQUIRED") None s_None None None.

(** Keywords as a pool hands them over. *)
Definition pool_keywords : kwargs :=
  [("strict", py_bool false); ("timeout", py_str "3");
   ("source_address", py_address ("10.0.0.1", 0%Z));
   ("socket_options", py_options [])].

(** A reachable host behind a proxy that refuses the tunnel, seen through
    an older [httplib]: [_tunnel] rebinds the host to the tunnel target,
    and closes the connection before it raises. *)
Definition old_proxy_refusing : Connection.world :=
  {| outside := {| tcp_answer := Ok tt;
                   proxy_answer := Raise (SocketError 0);
                   rebinds_host := true; closes_on_failure := true;
                   peer_certificate := example_peer;
                   peer_binary := "der:example.org" |};
     trace := [] |}.

(** [UnverifiedHTTPSConnection('example.org', timeout=3)] *)
Definition unverified_connection : connection :=
  HTTPS__init__ UnverifiedHTTPS "example.org" None None None (Seconds 3)
    None None.

(** A verified connection to [other.example] that asserts the hostname
    [example.org], the name on the peer's certificate. *)
Definition asserted_connection : connection :=
  set_cert None None (s_Name "CERT_REQUIRED") (Some "/etc/ca.pem")
    (ah_Name "example.org") None
    (HTTPS__init__ VerifiedHTTPS "other.example" None None None (Seconds 3)
       None None).

End Doubles.

(** ** Facts about TimedSocketFile *)

Module TimedSocketFileFacts.

Import TimedSocketFile.

Ltac run :=
  unfold io_call, read, readline, readlines, write, writelines,
    _validate_ttl, start_response, close, flush, next, bufsize, closed,
    default_bufsize, fileno, mode, name, softspace, getattr_fp, call_fp,
    on_sock, time_time, self, bind, ret, raise, modify, lift; simpl.

Section Facts.

Context {F : File}.

Lemma validate_expired (o : t) (w : world fpstate) (T start : Z) :
  timeout o = Some T -> _start_response o = Some start ->
  T < clock w - start ->
  _validate_ttl (o, w) = (Raise SocketTimeout, (o, after_close w)).
Proof.
  intros HT Hs Hlt. run. rewrite HT; simpl. rewrite Hs; simpl.
  destruct (Z.gtb_spec (clock w - start) T) as [_ | Hle]; [reflexivity | lia].
Qed.

Lemma validate_in_time (o : t) (w : world fpstate) (T start : Z) :
  timeout o = Some T -> _start_response o = Some start ->
  clock w - start <= T ->
  _validate_ttl (o, w) =
    (Ok tt, (o, after_settimeout (Z.max (T - (clock w - start)) 0) w)).
Proof.
  intros HT Hs Hle. run. rewrite HT; simpl. rewrite Hs; simpl.
  destruct (Z.gtb_spec (clock w - start) T) as [Hgt | _]; [lia | reflexivity].
Qed.

Lemma validate_no_timeout (o : t) (w : world fpstate) :
  timeout o = None -> _validate_ttl (o, w) = (Ok tt, (o, w)).
Proof. intros HT. run. rewrite HT. reflexivity. Qed.

Lemma validate_no_start (o : t) (w : world fpstate) (T : Z) :
  timeout o = Some T -> _start_response o = None ->
  _validate_ttl (o, w) = (Raise TypeError, (o, w)).
Proof. intros HT Hs. run. rewrite HT; simpl. rewrite Hs. reflexivity. Qed.

(** Every deadline-checked member is the check followed by the delegation. *)
Lemma io_call_unfold (op : io) (a : args) (s : state) :
  io_call op a s =
    match _validate_ttl s with
    | (Ok _, (o, w)) => delegated op a o w
    | (Raise e, s') => (Raise e, s')
    end.
Proof.
  destruct op; unfold io_call, read, readline, readlines, write, writelines,
    delegated, bind, ret, call_fp; simpl;
  destruct (_validate_ttl s) as [[[] | e] [o w]]; simpl; try reflexivity;
  match goal with |- context [fp_call ?m a w] =>
    destruct (fp_call m a w) as [[v | e] w'] end; reflexivity.
Qed.

(** C1: with a timeout T configured and a start instant recorded, a
    read/readline/readlines/write/writelines call made when more than T has
    elapsed since the start closes the socket and raises [socket.timeout],
    which is not a generic socket error; the wrapped stream is not called
    and the socket is left closed. *)
Theorem io_call_expired (op : io) (a : args) (o : t) (w : world fpstate)
    (T start : Z) :
  timeout o = Some T -> _start_response o = Some start ->
  T < clock w - start ->
  io_call op a (o, w) = (Raise SocketTimeout, (o, after_close w))
  /\ sock_closed (sock (snd (snd (io_call op a (o, w))))) = true
  /\ fp (snd (snd (io_call op a (o, w)))) = fp w
  /\ (forall errno, SocketTimeout <> SocketError errno).
Proof.
  intros HT Hs Hlt.
  assert (E : io_call op a (o, w) = (Raise SocketTimeout, (o, after_close w))).
  { rewrite io_call_unfold, (validate_expired o w T start HT Hs Hlt).
    reflexivity. }
  rewrite E. repeat split. intros errno H. discriminate H.
Qed.

(** C6 (as the code behaves): with a timeout configured and no start instant
    recorded, a read/readline/readlines/write/writelines call raises
    [TypeError] from the subtraction [time.time() - None]; the wrapped
    stream is not called and nothing is changed. *)
Theorem io_call_without_start (op : io) (a : args) (o : t)
    (w : world fpstate) (T : Z) :
  timeout o = Some T -> _start_response o = None ->
  io_call op a (o, w) = (Raise TypeError, (o, w)).
Proof.
  intros HT Hs.
  rewrite io_call_unfold, (validate_no_start o w T HT Hs). reflexivity.
Qed.

(** C8: with a timeout T configured and a start instant recorded, a call
    made when no more than T has elapsed first sets the socket's timeout to
    [max (T - elapsed) 0], which is [T - elapsed] and not negative, and then
    calls the wrapped stream on the world where that timeout is in place,
    handing its outcome on. *)
Theorem io_call_in_time (op : io) (a : args) (o : t) (w : world fpstate)
    (T start : Z) :
  timeout o = Some T -> _start_response o = Some start ->
  clock w - start <= T ->
  let remaining := Z.max (T - (clock w - start)) 0 in
  _validate_ttl (o, w) = (Ok tt, (o, after_settimeout remaining w))
  /\ io_call op a (o, w) = delegated op a o (after_settimeout remaining w)
  /\ gettimeout (sock (after_settimeout remaining w)) = Some remaining
  /\ remaining = T - (clock w - start) /\ 0 <= remaining.
Proof.
  intros HT Hs Hle remaining.
  pose proof (validate_in_time o w T start HT Hs Hle) as V.
  fold remaining in V.
  split; [exact V |].
  split; [rewrite io_call_unfold, V; reflexivity |].
  split; [reflexivity |]. unfold remaining. lia.
Qed.

(** C9: with no timeout configured, a read/readline/readlines/write/
    writelines call is the wrapped stream's call on the untouched world,
    whatever the clock and the recorded start: its outcome is the wrapped
    stream's, so any exception it raises, a timeout included, is one the
    wrapped stream raised itself. *)
Theorem io_call_no_timeout (op : io) (a : args) (o : t) (w : world fpstate) :
  timeout o = None ->
  io_call op a (o, w) = delegated op a o w
  /\ (forall e, fst (io_call op a (o, w)) = Raise e ->
        fst (fp_call (io_method op) a w) = Raise e).
Proof.
  intros HT.
  assert (E : io_call op a (o, w) = delegated op a o w).
  { rewrite io_call_unfold, (validate_no_timeout o w HT). reflexivity. }
  split; [exact E |].
  intros e. rewrite E. unfold delegated.
  destruct (fp_call (io_method op) a w) as [[v | e'] w']; simpl.
  - discriminate.
  - intros H; inversion H; reflexivity.
Qed.

(** The check leaves the object itself as it is. *)
Lemma validate_keeps_self (o : t) (w : world fpstate) :
  fst (snd (_validate_ttl (o, w))) = o.
Proof.
  run. destruct (timeout o) as [T |]; simpl; [| reflexivity].
  destruct (_start_response o) as [st |]; simpl; [| reflexivity].
  destruct (clock w - st >? T); reflexivity.
Qed.

(** No member rebinds [self.timeout]. *)
Lemma perform_keeps_timeout (u : use) (s : state) :
  timeout (fst (snd (perform u s))) = timeout (fst s).
Proof.
  destruct s as [o w].
  destruct u as [| | | | | | | | | | | op a]; simpl;
    try (run; reflexivity);
    try (run; match goal with |- context [fp_call ?m ?x ?y] =>
           destruct (fp_call m x y) as [[v | e] w'] end; reflexivity).
  rewrite io_call_unfold.
  pose proof (validate_keeps_self o w) as K.
  destruct (_validate_ttl (o, w)) as [[[] | e] [o' w']]; simpl in K; subst o'.
  - unfold delegated.
    destruct (fp_call (io_method op) a w') as [[v | e] w'']; reflexivity.
  - reflexivity.
Qed.

(** C10: the bound [self.timeout] is the socket's timeout at construction,
    and it stays that value through every use of the object, in any number
    and order, although reads and writes keep resetting the socket's own
    timeout. *)
Theorem timeout_bound_fixed (w : world fpstate) :
  timeout (fst (__init__ w)) = gettimeout (sock w)
  /\ (forall (u : use) (s : state),
        timeout (fst (snd (perform u s))) = timeout (fst s))
  /\ (forall us : list use,
        timeout (fst (history us (__init__ w))) = gettimeout (sock w)).
Proof.
  split; [reflexivity |].
  split; [exact perform_keeps_timeout |].
  intros us.
  assert (G : forall s, timeout (fst (history us s)) = timeout (fst s)).
  { induction us as [| u us IH]; intros s; simpl; [reflexivity |].
    rewrite IH. apply perform_keeps_timeout. }
  rewrite G. reflexivity.
Qed.

(** *** More on the stream: the window, the budget, the callers *)

(** What a use leaves of the object: only [start_response] rebinds
    anything, and only the start. *)
Lemma perform_self (u : use) (s : state) :
  fst (snd (perform u s)) =
    match u with
    | u_start_response =>
        {| timeout := timeout (fst s);
           _start_response := Some (clock (snd s)) |}
    | _ => fst s
    end.
Proof.
  destruct s as [o w].
  destruct u as [| | | | | | | | | | | op a]; simpl;
    try (run; reflexivity);
    try (run; match goal with |- context [fp_call ?m ?x ?y] =>
           destruct (fp_call m x y) as [[v | e] w'] end; reflexivity).
  rewrite io_call_unfold.
  pose proof (validate_keeps_self o w) as K.
  destruct (_validate_ttl (o, w)) as [[[] | e] [o' w']]; simpl in K; subst o'.
  - unfold delegated.
    destruct (fp_call (io_method op) a w') as [[v | e] w'']; reflexivity.
  - reflexivity.
Qed.

(** The check changes nothing but the socket. *)
Lemma validate_world (o : t) (w : world fpstate) :
  clock (snd (snd (_validate_ttl (o, w)))) = clock w
  /\ fp (snd (snd (_validate_ttl (o, w)))) = fp w.
Proof.
  run. destruct (timeout o) as [T |]; simpl; [| split; reflexivity].
  destruct (_start_response o) as [st |]; simpl; [| split; reflexivity].
  destruct (clock w - st >? T); split; reflexivity.
Qed.

(** X1: once a start is recorded, it stays recorded through every use, so
    the check never again raises the [TypeError] of the missing start. *)
Theorem start_stays_recorded (us : list use) (s : state) :
  _start_response (fst (history us (snd (start_response s)))) <> None
  /\ fst (_validate_ttl (history us (snd (start_response s))))
     <> Raise TypeError.
Proof.
  assert (G : forall us s, _start_response (fst s) <> None ->
                _start_response (fst (history us s)) <> None).
  { clear. induction us as [| u us IH]; intros s H; simpl; [exact H |].
    apply IH. rewrite perform_self.
    destruct u; try exact H. simpl. discriminate. }
  assert (R : _start_response (fst (history us (snd (start_response s))))
              <> None).
  { apply G. destruct s as [o w]. run. discriminate. }
  split; [exact R |].
  destruct (history us (snd (start_response s))) as [o w]. simpl in R.
  run. destruct (timeout o) as [T |]; simpl; [| discriminate].
  destruct (_start_response o) as [st |]; simpl; [| contradiction R; reflexivity].
  destruct (clock w - st >? T); discriminate.
Qed.

(** X2: [begin] records the instant it is entered, and nothing the
    superclass's parser does through the members moves it: when [begin]
    ends, by return or by exception, the start is still that instant and
    the bound is unchanged. *)
Theorem begin_fixes_start (p : client) (o : t) (w : world fpstate) :
  plain p ->
  fst (snd (begin p (o, w)))
  = {| timeout := timeout o; _start_response := Some (clock w) |}.
Proof.
  intros Hp.
  assert (G : forall s, fst (snd (run p s)) = fst s).
  { induction Hp as [r | u k Hu Hk IH]; intros s; simpl; [reflexivity |].
    pose proof (perform_self u s) as K.
    destruct (perform u s) as [r s']. simpl in K. rewrite IH, K.
    destruct u; try reflexivity. contradiction Hu; reflexivity. }
  unfold begin, bind. run. apply G.
Qed.

(** X3: the check raises [socket.timeout] exactly when more than T has
    elapsed; at exactly T it lets the call through with a budget of zero. *)
Theorem validate_boundary (o : t) (w : world fpstate) (T start : Z) :
  timeout o = Some T -> _start_response o = Some start ->
  (fst (_validate_ttl (o, w)) = Raise SocketTimeout <-> T < clock w - start)
  /\ (clock w - start = T ->
        _validate_ttl (o, w) = (Ok tt, (o, after_settimeout 0 w))).
Proof.
  intros HT Hs. split.
  - split.
    + intros H. destruct (Z_lt_le_dec T (clock w - start)) as [L | L];
        [exact L |].
      rewrite (validate_in_time o w T start HT Hs L) in H. discriminate H.
    + intros L. rewrite (validate_expired o w T start HT Hs L). reflexivity.
  - intros E. rewrite (validate_in_time o w T start HT Hs ltac:(lia)).
    replace (Z.max (T - (clock w - start)) 0) with 0 by lia. reflexivity.
Qed.

(** The budget the check leaves on the socket when it lets a call through. *)
Lemma budget_set (o : t) (w : world fpstate) (T start : Z) :
  timeout o = Some T -> _start_response o = Some start ->
  clock w - start <= T ->
  gettimeout (sock (snd (snd (_validate_ttl (o, w)))))
  = Some (T - (clock w - start)).
Proof.
  intros HT Hs L. rewrite (validate_in_time o w T start HT Hs L). simpl.
  f_equal. lia.
Qed.

(** X4: while the clock has not gone back behind the start, the budget put
    on the socket lies between 0 and the bound T, and a later call gets no
    more than an earlier one. *)
Theorem budget_shrinks (o : t) (w1 w2 : world fpstate) (T start : Z) :
  timeout o = Some T -> _start_response o = Some start ->
  start <= clock w1 -> clock w1 <= clock w2 -> clock w2 - start <= T ->
  exists b1 b2,
    gettimeout (sock (snd (snd (_validate_ttl (o, w1))))) = Some b1
    /\ gettimeout (sock (snd (snd (_validate_ttl (o, w2))))) = Some b2
    /\ 0 <= b2 /\ b2 <= b1 /\ b1 <= T.
Proof.
  intros HT Hs L0 L1 L2.
  exists (T - (clock w1 - start)), (T - (clock w2 - start)).
  split; [apply budget_set; [assumption | assumption | lia] |].
  split; [apply budget_set; assumption |]. lia.
Qed.


(** X6: [start_response] restarts the window whatever was recorded before:
    a call made at the instant of a fresh [start_response] is let through
    with the whole bound T as its budget. *)
Theorem fresh_start_full_budget (op : io) (a : args) (o : t)
    (w : world fpstate) (T : Z) :
  timeout o = Some T -> 0 <= T ->
  io_call op a (snd (start_response (o, w)))
  = delegated op a {| timeout := Some T; _start_response := Some (clock w) |}
      (after_settimeout T w).
Proof.
  intros HT L0. rewrite io_call_unfold.
  assert (E : snd (start_response (o, w))
              = ({| timeout := Some T; _start_response := Some (clock w) |},
                 w)).
  { run. rewrite HT. reflexivity. }
  rewrite E.
  rewrite (validate_in_time
             {| timeout := Some T; _start_response := Some (clock w) |}
             w T (clock w) eq_refl eq_refl ltac:(lia)).
  replace (Z.max (T - (clock w - clock w)) 0) with T by lia. reflexivity.
Qed.

(** X7: [next], [flush] and [close] carry no check: with the deadline long
    passed, where [readline] closes the socket and raises, [next] still
    reaches the wrapped stream, and the wrapper itself leaves the socket
    open. *)
Theorem next_bypasses_deadline (a : args) (o : t) (w : world fpstate)
    (T start : Z) :
  timeout o = Some T -> _start_response o = Some start ->
  T < clock w - start ->
  readline a (o, w) = (Raise SocketTimeout, (o, after_close w))
  /\ next (o, w)
     = match fp_call m_next no_args w with
       | (Ok v, w') => (Ok (Value v), (o, w'))
       | (Raise e, w') => (Raise e, (o, w'))
       end
  /\ snd (snd (flush (o, w))) = snd (fp_call m_flush no_args w)
  /\ snd (snd (close (o, w))) = snd (fp_call m_close no_args w).
Proof.
  intros HT Hs L.
  split.
  { change (readline a (o, w)) with (io_call Readline a (o, w)).
    rewrite io_call_unfold, (validate_expired o w T start HT Hs L).
    reflexivity. }
  split; [| split]; run.
  - destruct (fp_call m_next no_args w) as [[v | e] w']; reflexivity.
  - destruct (fp_call m_flush no_args w) as [[v | e] w']; reflexivity.
  - destruct (fp_call m_close no_args w) as [[v | e] w']; reflexivity.
Qed.

(** After any run of reads and writes from a started stream, either the
    deadline has passed or every one of them was served and took its
    time. *)
Lemma slow_progress (d T start : Z) (o : t) :
  0 < d ->
  (forall m a w, clock w + d <= clock (snd (fp_call m a w))) ->
  timeout o = Some T -> _start_response o = Some start ->
  forall (ios : list (io * args)) (w : world fpstate),
    fst (history (io_uses ios) (o, w)) = o
    /\ (T < clock (snd (history (io_uses ios) (o, w))) - start
        \/ clock w + d * Z.of_nat (List.length ios)
           <= clock (snd (history (io_uses ios) (o, w)))).
Proof.
  intros Hd Hslow HT Hs.
  induction ios as [| [op a] ios IH]; intros w.
  - simpl. split; [reflexivity | right; lia].
  - cbn [io_uses map history fst snd perform List.length].
    fold (io_uses ios).
    rewrite io_call_unfold.
    destruct (Z_lt_le_dec T (clock w - start)) as [L | L].
    + rewrite (validate_expired o w T start HT Hs L). cbn [snd].
      destruct (IH (after_close w)) as [Ho Hc]. split; [exact Ho |].
      left. destruct Hc as [Hc | Hc]; [exact Hc |].
      simpl in Hc. nia.
    + rewrite (validate_in_time o w T start HT Hs L). unfold delegated.
      pose proof (Hslow (io_method op) a
                    (after_settimeout (Z.max (T - (clock w - start)) 0) w))
        as P.
      destruct (fp_call (io_method op) a _) as [[v | e] w'];
        cbn [snd] in *; simpl in P;
        destruct (IH w') as [Ho Hc]; (split; [exact Ho |]);
        (destruct Hc as [Hc | Hc]; [left; exact Hc | right]);
        rewrite Nat2Z.inj_succ; nia.
Qed.

(** X8: a stream that takes at least [d] ticks over every call cannot keep
    a reader for ever: after enough reads and writes for [d] apiece to
    exceed T, whether they were served or refused, the next one raises
    [socket.timeout] and leaves the socket closed. *)
Theorem slow_stream_times_out (d T start : Z) (ios : list (io * args))
    (op : io) (a : args) (o : t) (w : world fpstate) :
  0 < d ->
  (forall m a w, clock w + d <= clock (snd (fp_call m a w))) ->
  timeout o = Some T -> _start_response o = Some start ->
  start <= clock w -> T < d * Z.of_nat (List.length ios) ->
  fst (io_call op a (history (io_uses ios) (o, w))) = Raise SocketTimeout
  /\ sock_closed
       (sock (snd (snd (io_call op a (history (io_uses ios) (o, w))))))
     = true.
Proof.
  intros Hd Hslow HT Hs L0 Ln.
  destruct (slow_progress d T start o Hd Hslow HT Hs ios w) as [Ho Hc].
  destruct (history (io_uses ios) (o, w)) as [o' w']. simpl in Ho, Hc.
  subst o'.
  assert (L : T < clock w' - start) by (destruct Hc; lia).
  rewrite io_call_unfold, (validate_expired o w' T start HT Hs L).
  split; reflexivity.
Qed.

End Facts.

(** *** The stream on concrete inputs *)

#[local] Existing Instance Doubles.echo.

Lemma io_call_expired_witness :
  timeout Doubles.started = Some 10
  /\ _start_response Doubles.started = Some 100
  /\ 10 < clock (Doubles.at_instant 111) - 100
  /\ io_call (F := Doubles.echo) Read 7
       (Doubles.started, Doubles.at_instant 111)
     = (Raise SocketTimeout,
        (Doubles.started,
         {| clock := 111;
            sock := {| gettimeout := Some 10; sock_closed := true |};
            fp := 0 |})).
Proof.
  split; [reflexivity |]. split; [reflexivity |]. split; [reflexivity |].
  exact (proj1 (io_call_expired (F := Doubles.echo) Read 7 Doubles.started
                  (Doubles.at_instant 111) 10 100 eq_refl eq_refl eq_refl)).
Defined.

Lemma io_call_without_start_witness :
  timeout (fst Doubles.unstarted) = Some 10
  /\ _start_response (fst Doubles.unstarted) = None
  /\ io_call (F := Doubles.echo) Read 7 Doubles.unstarted
     = (Raise TypeError, Doubles.unstarted).
Proof.
  split; [reflexivity |]. split; [reflexivity |].
  exact (io_call_without_start (F := Doubles.echo) Read 7
           (fst Doubles.unstarted) (snd Doubles.unstarted) 10
           eq_refl eq_refl).
Defined.

Lemma io_call_in_time_witness :
  timeout Doubles.started = Some 10
  /\ _start_response Doubles.started = Some 100
  /\ clock (Doubles.at_instant 104) - 100 <= 10
  /\ io_call (F := Doubles.echo) Readline 7
       (Doubles.started, Doubles.at_instant 104)
     = (Ok (Value (F := Doubles.echo) 7),
        (Doubles.started,
         {| clock := 105;
            sock := {| gettimeout := Some 6; sock_closed := false |};
            fp := 1 |})).
Proof.
  split; [reflexivity |]. split; [reflexivity |].
  split; [simpl; lia |].
  assert (L : clock (Doubles.at_instant 104) - 100 <= 10) by (simpl; lia).
  exact (proj1 (proj2 (io_call_in_time (F := Doubles.echo) Readline 7
                         Doubles.started (Doubles.at_instant 104) 10 100
                         eq_refl eq_refl L))).
Defined.

Lemma io_call_no_timeout_witness :
  timeout (fst (__init__ (F := Doubles.echo) Doubles.blocking_world)) = None
  /\ io_call (F := Doubles.echo) Write 7 (__init__ (F := Doubles.echo) Doubles.blocking_world)
     = (Ok (Value (F := Doubles.echo) 7),
        ({| timeout := None; _start_response := None |},
         {| clock := 101;
            sock := {| gettimeout := None; sock_closed := false |};
            fp := 1 |})).
Proof.
  split; [reflexivity |].
  exact (proj1 (io_call_no_timeout (F := Doubles.echo) Write 7
                  (fst (__init__ (F := Doubles.echo) Doubles.blocking_world))
                  (snd (__init__ (F := Doubles.echo) Doubles.blocking_world)) eq_refl)).
Defined.

(** A whole exchange: the stream is built over a socket with a timeout of
    10, the response starts at 100, a first line is read (one tick), the
    clock then stalls until 115 and the next read times out.  The bound is
    10 throughout while the socket's own timeout went 10, 10, closed. *)
Example stalled_response :
  let s0 : state (F := Doubles.echo) := __init__ Doubles.timed_world in
  let s1 : state (F := Doubles.echo) := snd (start_response s0) in
  let s2 : state (F := Doubles.echo) := snd (readline (7 : Z) s1) in
  let s3 : state (F := Doubles.echo) :=
    (fst s2, {| clock := 115; sock := sock (snd s2); fp := fp (snd s2) |}) in
  fst (readline (7 : Z) s1) = Ok (Value (F := Doubles.echo) 7)
  /\ gettimeout (sock (snd s2)) = Some 10
  /\ fst (read (7 : Z) s3) = Raise SocketTimeout
  /\ sock_closed (sock (snd (snd (read (7 : Z) s3)))) = true
  /\ timeout (fst (snd (read (7 : Z) s3))) = Some 10.
Proof. repeat split. Qed.

(** *** The extras on concrete inputs *)

Lemma begin_fixes_start_witness :
  plain Doubles.two_lines
  /\ fst (snd (begin Doubles.two_lines Doubles.unstarted))
     = {| timeout := Some 10; _start_response := Some 100 |}.
Proof.
  assert (P : plain Doubles.two_lines).
  { apply plain_Call; [discriminate |].
    intros [v | e]; [| apply plain_Finish].
    apply plain_Call; [discriminate |]. intros r. apply plain_Finish. }
  split; [exact P |].
  exact (begin_fixes_start Doubles.two_lines (fst Doubles.unstarted)
           (snd Doubles.unstarted) P).
Defined.

Lemma validate_boundary_witness :
  timeout Doubles.started = Some 10
  /\ _start_response Doubles.started = Some 100
  /\ clock (Doubles.at_instant 110) - 100 = 10
  /\ _validate_ttl (Doubles.started, Doubles.at_instant 110)
     = (Ok tt, (Doubles.started, after_settimeout 0 (Doubles.at_instant 110))).
Proof.
  split; [reflexivity |]. split; [reflexivity |]. split; [reflexivity |].
  exact (proj2 (validate_boundary Doubles.started (Doubles.at_instant 110)
                  10 100 eq_refl eq_refl) eq_refl).
Defined.

Lemma budget_shrinks_witness :
  timeout Doubles.started = Some 10
  /\ _start_response Doubles.started = Some 100
  /\ 100 <= clock (Doubles.at_instant 104)
  /\ clock (Doubles.at_instant 104) <= clock (Doubles.at_instant 108)
  /\ clock (Doubles.at_instant 108) - 100 <= 10
  /\ exists b1 b2,
       gettimeout (sock (snd (snd (_validate_ttl
         (Doubles.started, Doubles.at_instant 104))))) = Some b1
       /\ gettimeout (sock (snd (snd (_validate_ttl
            (Doubles.started, Doubles.at_instant 108))))) = Some b2
       /\ 0 <= b2 /\ b2 <= b1 /\ b1 <= 10.
Proof.
  assert (L0 : 100 <= clock (Doubles.at_instant 104)) by (simpl; lia).
  assert (L1 : clock (Doubles.at_instant 104)
               <= clock (Doubles.at_instant 108)) by (simpl; lia).
  assert (L2 : clock (Doubles.at_instant 108) - 100 <= 10) by (simpl; lia).
  split; [reflexivity |]. split; [reflexivity |]. split; [exact L0 |].
  split; [exact L1 |]. split; [exact L2 |].
  exact (budget_shrinks Doubles.started (Doubles.at_instant 104)
           (Doubles.at_instant 108) 10 100 eq_refl eq_refl L0 L1 L2).
Defined.


Lemma fresh_start_full_budget_witness :
  timeout Doubles.started = Some 10 /\ 0 <= 10
  /\ io_call Read 7 (snd (start_response
                            (Doubles.started, Doubles.at_instant 150)))
     = delegated Read 7
         {| timeout := Some 10; _start_response := Some 150 |}
         (after_settimeout 10 (Doubles.at_instant 150)).
Proof.
  assert (L0 : 0 <= 10) by lia.
  split; [reflexivity |]. split; [exact L0 |].
  exact (fresh_start_full_budget Read 7 Doubles.started
           (Doubles.at_instant 150) 10 eq_refl L0).
Defined.

Lemma next_bypasses_deadline_witness :
  timeout Doubles.started = Some 10
  /\ _start_response Doubles.started = Some 100
  /\ 10 < clock (Doubles.at_instant 111) - 100
  /\ fst (readline 7 (Doubles.started, Doubles.at_instant 111))
     = Raise SocketTimeout
  /\ fst (next (Doubles.started, Doubles.at_instant 111))
     = Ok (Value (F := Doubles.echo) 0).
Proof.
  assert (L : 10 < clock (Doubles.at_instant 111) - 100) by (simpl; lia).
  split; [reflexivity |]. split; [reflexivity |]. split; [exact L |].
  destruct (next_bypasses_deadline (F := Doubles.echo) 7 Doubles.started (Doubles.at_instant 111)
              10 100 eq_refl eq_refl L) as [H1 [H2 _]].
  split; [exact (f_equal fst H1) | exact (f_equal fst H2)].
Defined.

Lemma slow_stream_times_out_witness :
  0 < 5
  /\ (forall m a w,
        clock w + 5 <= clock (snd (fp_call (File := Doubles.dribble) m a w)))
  /\ 100 <= clock (Doubles.at_instant 100)
  /\ 10 < 5 * Z.of_nat (List.length [(Read, 0); (Read, 0); (Read, 0)])
  /\ fst (io_call (F := Doubles.dribble) Read 0
            (history (F := Doubles.dribble)
               (io_uses (F := Doubles.dribble)
                  [(Read, 0); (Read, 0); (Read, 0)])
               (Doubles.started, Doubles.at_instant 100)))
     = Raise SocketTimeout.
Proof.
  assert (Hd : 0 < 5) by lia.
  assert (Hslow : forall m a w,
            clock w + 5
            <= clock (snd (fp_call (File := Doubles.dribble) m a w)))
    by (intros m a w; simpl; lia).
  assert (L0 : 100 <= clock (Doubles.at_instant 100)) by (simpl; lia).
  assert (Ln : 10 < 5 * Z.of_nat
                        (List.length [(Read, 0); (Read, 0); (Read, 0)]))
    by (simpl; lia).
  split; [exact Hd |]. split; [exact Hslow |]. split; [exact L0 |].
  split; [exact Ln |].
  exact (proj1 (slow_stream_times_out (F := Doubles.dribble) 5 10 100
                  [(Read, 0); (Read, 0); (Read, 0)] Read 0 Doubles.started
                  (Doubles.at_instant 100) Hd Hslow eq_refl eq_refl L0 Ln)).
Defined.

(** The client of [test_timeout.py] with a timeout of 10: the first three
    reads are served, at 100, 105 and 110, the last on a budget of zero;
    the fourth is refused. *)
Example dribble_exchange :
  let s0 : state (F := Doubles.dribble) :=
    snd (start_response (F := Doubles.dribble)
           (Doubles.started, Doubles.at_instant 100)) in
  let s1 := snd (read (F := Doubles.dribble) 0 s0) in
  let s2 := snd (read (F := Doubles.dribble) 0 s1) in
  let s3 := snd (read (F := Doubles.dribble) 0 s2) in
  fst (read (F := Doubles.dribble) 0 s2) = Ok (Value (F := Doubles.dribble) 97)
  /\ gettimeout (sock (snd s3)) = Some 0
  /\ clock (snd s3) = 115
  /\ fst (read (F := Doubles.dribble) 0 s3) = Raise SocketTimeout.
Proof. repeat split. Qed.

End TimedSocketFileFacts.

(** ** Facts about the connections *)

Module ConnectionFacts.

Import Connection.

Ltac unfold_monad :=
  unfold bind, ret, raise, modify, lift, self, setattr, log, extern,
    try_except_SocketTimeout.

Section Facts.

Context {X : Collaborators}.

Lemma bind_ok {A B : Type} (m : M state A) (k : A -> M state B)
    (s s' : state) (a : A) :
  m s = (Ok a, s') -> bind m k s = k a s'.
Proof. intros H. unfold bind. rewrite H. reflexivity. Qed.

(** [_new_conn] in one equation, by the network's answer. *)
Lemma new_conn_eq (c : connection) (w : world) :
  _new_conn (c, w) =
    (match fst (tcp_connect (host c, port c) (timeout c) (source_address c)
                  (outside w)) with
     | Ok _ => Ok (created c)
     | Raise SocketTimeout => Raise (ConnectTimeoutError (host c) (timeout c))
     | Raise e => Raise e
     end, (c, after_create c w)).
Proof.
  unfold _new_conn, create_connection, after_create, created.
  unfold_monad. simpl.
  destruct (tcp_connect (host c, port c) (timeout c) (source_address c)
              (outside w)) as [[[] | e] env']; simpl; [reflexivity |].
  destruct e; reflexivity.
Qed.

(** C4: when the TCP connect fails, [_new_conn] fails: on a timeout with
    [ConnectTimeoutError] carrying the connection's host and timeout, an
    error that is neither [socket.timeout] nor a generic socket error; on
    anything else with that very exception. *)
Theorem new_conn_failure (c : connection) (w : world) (e : exn) (env' : env) :
  tcp_connect (host c, port c) (timeout c) (source_address c) (outside w)
    = (Raise e, env') ->
  (e = SocketTimeout ->
     fst (_new_conn (c, w)) = Raise (ConnectTimeoutError (host c) (timeout c)))
  /\ (e <> SocketTimeout -> fst (_new_conn (c, w)) = Raise e)
  /\ (forall errno, ConnectTimeoutError (host c) (timeout c) <> SocketError errno)
  /\ ConnectTimeoutError (host c) (timeout c) <> SocketTimeout.
Proof.
  intros H. rewrite new_conn_eq, H. simpl.
  split; [intros ->; reflexivity |].
  split; [| split; [intros n E; discriminate E | intros E; discriminate E]].
  intros Hne. destruct e; try reflexivity. contradiction Hne; reflexivity.
Qed.

(** C7: when the caller gives a socket-options list to the constructor, the
    socket [_new_conn] returns has exactly that list applied, in that order:
    the default options are not used, and with the empty list none are
    applied. *)
Theorem socket_options_roundtrip (k : class) (h : string) (p : option Z)
    (t : timeout_value) (sa : option address) (opts : list sockopt)
    (w : world) (conn : raw_socket) (s' : state) :
  _new_conn (__init__ k h p t sa (Some (Some opts)), w) = (Ok conn, s') ->
  socket_options (__init__ k h p t sa (Some (Some opts))) = Some opts
  /\ applied_options conn = opts
  /\ (opts = [] -> applied_options conn = []).
Proof.
  intros H. rewrite new_conn_eq in H.
  split; [reflexivity |].
  assert (E : applied_options conn = opts).
  { destruct (fst (tcp_connect _ _ _ _)) as [[] | e].
    - inversion H; subst. unfold created; simpl. destruct opts; reflexivity.
    - destruct e; discriminate H. }
  split; [exact E | intros ->; exact E].
Qed.


(** *** Outcomes by symbolic execution *)

Lemma wp_bind {A B : Type} (m : M state A) (k : A -> M state B) s Q :
  wp m s (fun r s1 =>
            match r with
            | Ok a => wp (k a) s1 Q
            | Raise e => Q (Raise e) s1
            end) ->
  wp (bind m k) s Q.
Proof.
  unfold wp, bind. destruct (m s) as [[a | e] s1]; simpl; auto.
Qed.

Lemma wp_ret {A : Type} (a : A) s (Q : res A -> state -> Prop) :
  Q (Ok a) s -> wp (ret a) s Q.
Proof. auto. Qed.

Lemma wp_raise {A : Type} (e : exn) s (Q : res A -> state -> Prop) :
  Q (Raise e) s -> wp (raise e) s Q.
Proof. auto. Qed.

Lemma wp_self s (Q : res connection -> state -> Prop) :
  Q (Ok (fst s)) s -> wp self s Q.
Proof. auto. Qed.

Lemma wp_lift {A : Type} (r : res A) s (Q : res A -> state -> Prop) :
  Q r s -> wp (lift r) s Q.
Proof. auto. Qed.

Lemma wp_setattr (g : connection -> connection) s
    (Q : res unit -> state -> Prop) :
  Q (Ok tt) (g (fst s), snd s) -> wp (setattr g) s Q.
Proof. auto. Qed.

Lemma wp_log (e : event) s (Q : res unit -> state -> Prop) :
  Q (Ok tt)
    (fst s, {| outside := outside (snd s); trace := trace (snd s) ++ [e] |}) ->
  wp (log e) s Q.
Proof. auto. Qed.

Lemma wp_extern {A : Type} (f : env -> res A * env) s
    (Q : res A -> state -> Prop) :
  (forall r e', f (outside (snd s)) = (r, e') ->
     Q r (fst s, {| outside := e'; trace := trace (snd s) |})) ->
  wp (extern f) s Q.
Proof.
  intros H. unfold wp, extern.
  destruct (f (outside (snd s))) as [r e'] eqn:E. simpl. apply H. reflexivity.
Qed.

Lemma wp_outside_world s (Q : res env -> state -> Prop) :
  Q (Ok (outside (snd s))) s -> wp outside_world s Q.
Proof. auto. Qed.

Lemma wp_try_cleanup {A : Type} (body : M state A) (cleanup : M state unit)
    s (Q : res A -> state -> Prop) :
  wp body s (fun r s1 =>
               match r with
               | Ok a => Q (Ok a) s1
               | Raise e => wp cleanup s1 (fun _ s2 => Q (Raise e) s2)
               end) ->
  wp (try_cleanup body cleanup) s Q.
Proof.
  unfold wp, try_cleanup. destruct (body s) as [[a | e] s1]; simpl; auto.
Qed.

Lemma wp_new_conn c w (Q : res raw_socket -> state -> Prop) :
  (forall r e',
     tcp_connect (host c, port c) (timeout c) (source_address c) (outside w)
       = (r, e') ->
     Q match r with
       | Ok _ => Ok (created c)
       | Raise e => Raise (connect_error c e)
       end
       (c, {| outside := e';
              trace := trace w ++
                [create_connection_called (host c, port c) (timeout c)
                   (source_address c) (kw_if_true (socket_options c))] |})) ->
  wp _new_conn (c, w) Q.
Proof.
  intros H. unfold wp. rewrite new_conn_eq. simpl. unfold after_create.
  destruct (tcp_connect (host c, port c) (timeout c) (source_address c)
              (outside w)) as [r e'] eqn:E.
  specialize (H r e' eq_refl). simpl.
  destruct r as [[] | e]; [exact H |]. destruct e; exact H.
Qed.

(** Case analysis on [x], unless a hypothesis already says what [x] is. *)
Ltac decide_on x :=
  first [ match goal with H : x = _ |- _ => rewrite H end
        | destruct x eqn:? ].

Ltac wp_step :=
  match goal with
  | |- wp (bind _ _) _ _ => apply wp_bind
  | |- wp (ret _) _ _ => apply wp_ret
  | |- wp (raise _) _ _ => apply wp_raise
  | |- wp self _ _ => apply wp_self
  | |- wp (lift ?r) _ _ => apply wp_lift; decide_on r
  | |- wp (setattr _) _ _ => apply wp_setattr
  | |- wp (log _) _ _ => apply wp_log
  | |- wp outside_world _ _ => apply wp_outside_world
  | |- wp (try_cleanup _ _) _ _ => apply wp_try_cleanup
  | |- wp (extern _) _ _ => apply wp_extern; intros [? | ?] ? ?
  | |- wp _new_conn (_, _) _ => apply wp_new_conn; intros [[] | ?] ? ?
  | |- wp (if ?b then _ else _) _ _ => decide_on b
  | |- wp (match ?x with _ => _ end) _ _ => decide_on x
  end; cbn beta iota delta [fst snd outside trace].

(** Two hypotheses on the answer of one call say the same thing. *)
Ltac merge_answers :=
  repeat match goal with
         | H1 : ?f = ?p, H2 : ?f = ?q |- _ =>
             tryif constr_eq p q then fail
             else (let E := fresh "E" in
                   assert (E : p = q) by congruence;
                   clear H1; inversion E; subst; clear E)
         end.

Ltac wp_run :=
  unfold connect, HTTPConnection_connect, HTTPSConnection_connect,
    VerifiedHTTPSConnection_connect, connect_wrap, connect_check,
    _prepare_conn, _tunnel, wrap_socket, ssl_wrap_socket,
    call_assert_fingerprint, match_hostname, getattr, self_sock;
  repeat wp_step.



Lemma connect_wrap_outcome (c : connection) (w : world) :
  wp connect_wrap (c, w) (fun out s' =>
    match out with
    | Ok (r, h) =>
        resolve_cert_reqs (cert_reqs c) = Ok r
        /\ h = identity c
        /\ (exists s, sock (fst s') = Some (Tls s) /\ wrapped s = created c)
        /\ assert_fingerprint (fst s') = assert_fingerprint c
        /\ assert_hostname (fst s') = assert_hostname c
    | Raise _ => True
    end).
Proof.
  wp_run; try exact I; simpl in *; unfold identity;
    repeat match goal with H : truthy _ = _ |- _ => rewrite H end;
    repeat split; try assumption; try reflexivity; eexists; split; reflexivity.
Qed.


Lemma wp_eq {A : Type} (m : M state A) (s : state) (x : res A * state) :
  wp m s (fun out s' => (out, s') = x) -> m s = x.
Proof. unfold wp. destruct (m s); simpl; auto. Qed.

(** C3: once the wrap of a verified connect is done with a resolved level
    [r] other than [CERT_NONE] and a verification identity [h] (the tunnel
    target if any, else the host), the outcome of connect is decided: with a
    fingerprint configured, by [assert_fingerprint] on the certificate's
    binary form alone, [match_hostname] not being called; with none and
    [assert_hostname] a name, by [match_hostname] on the certificate and
    that name; with none and [assert_hostname] [None] (or empty), by
    [match_hostname] on the certificate and [h]; with [assert_hostname]
    [False], by nothing.  A failed check raises its error and leaves
    [is_verified] as it was. *)
Theorem verified_checks (c c1 : connection) (w w1 : world) (r : Z)
    (h : string) (fp : option string) (a : hostname_assertion) :
  connect_wrap (c, w) = (Ok (r, h), (c1, w1)) ->
  r <> CERT_NONE ->
  assert_fingerprint c = Some fp ->
  assert_hostname c = Some a ->
  h = identity c
  /\ exists s,
       sock c1 = Some (Tls s)
       /\ (forall f, fp = Some f -> truthy fp = true ->
             VerifiedHTTPSConnection_connect (c, w) =
               conclude r c1 w1
                 (fingerprint_check (getpeercert_binary s) f)
                 [assert_fingerprint_called (getpeercert_binary s) f
                    (is_ok (fingerprint_check (getpeercert_binary s) f))])
       /\ (forall n, truthy fp = false -> a = ah_Name n -> n <> "" ->
             VerifiedHTTPSConnection_connect (c, w) =
               conclude r c1 w1
                 (hostname_check (getpeercert s) n)
                 [match_hostname_called (getpeercert s) n
                    (is_ok (hostname_check (getpeercert s) n))])
       /\ (truthy fp = false -> a = ah_None \/ a = ah_Name "" ->
             VerifiedHTTPSConnection_connect (c, w) =
               conclude r c1 w1
                 (hostname_check (getpeercert s) h)
                 [match_hostname_called (getpeercert s) h
                    (is_ok (hostname_check (getpeercert s) h))])
       /\ (truthy fp = false -> a = ah_False ->
             VerifiedHTTPSConnection_connect (c, w) =
               conclude r c1 w1 (Ok tt) []).
Proof.
  intros Hw Hr Hfp Ha.
  pose proof (connect_wrap_outcome c w) as O. unfold wp in O.
  rewrite Hw in O. simpl in O.
  destruct O as (_ & Hh & (s & Hs & _) & Hfp1 & Ha1).
  rewrite Hfp in Hfp1. rewrite Ha in Ha1.
  split; [exact Hh |]. exists s. split; [exact Hs |].
  assert (Hne : negb (r =? CERT_NONE)%Z = true).
  { apply negb_true_iff, Z.eqb_neq, Hr. }
  assert (Start : forall k : Z * string -> M state unit,
            bind connect_wrap k (c, w) = k (r, h) (c1, w1)).
  { intros k. apply bind_ok. exact Hw. }
  unfold VerifiedHTTPSConnection_connect. rewrite Start. simpl fst; simpl snd.
  destruct w1 as [o1 t1]. unfold conclude. simpl outside; simpl trace.
  split; [| split; [| split]].
  - intros f -> Ht. apply wp_eq. wp_run;
      repeat match goal with u : unit |- _ => destruct u end; reflexivity.
  - intros n Ht -> Hn. apply String.eqb_neq in Hn.
    assert (Eo : or_hostname (ah_Name n) h = n)
      by (unfold or_hostname; rewrite Hn; reflexivity).
    apply wp_eq. wp_run; rewrite ?Eo in *;
      repeat match goal with
             | H : hostname_check _ _ = _ |- _ => rewrite H
             | u : unit |- _ => destruct u
             end; reflexivity.
  - intros Ht [-> | ->]; apply wp_eq; wp_run;
      unfold or_hostname in *; simpl in *;
      repeat match goal with
             | H : hostname_check _ _ = _ |- _ => rewrite H
             | u : unit |- _ => destruct u
             end; reflexivity.
  - intros Ht ->. apply wp_eq. wp_run. rewrite app_nil_r. reflexivity.
Qed.



(** When the tunnel handshake itself raises, connect stops there: nothing
    of TLS is called, the exception goes to the caller, and [auto_open] has
    not been touched yet. *)
Lemma tunnel_failure_stops_connect (c : connection) (w : world)
    (th : string) (r v : Z) (e1 e2 : env) (e : exn) :
  _tunnel_host c = Some th -> truthy (Some th) = true ->
  tcp_connect (host c, port c) (timeout c) (source_address c) (outside w)
    = (Ok tt, e1) ->
  resolve_cert_reqs (cert_reqs c) = Ok r ->
  resolve_ssl_version (ssl_version c) = Ok v ->
  httplib_tunnel (Some (Plain (created c))) (Some th) e1 = (Raise e, e2) ->
  fst (VerifiedHTTPSConnection_connect (c, w)) = Raise e
  /\ auto_open (fst (snd (VerifiedHTTPSConnection_connect (c, w))))
     = auto_open c
  /\ trace (snd (snd (VerifiedHTTPSConnection_connect (c, w))))
     = (trace w ++
        [create_connection_called (host c, port c) (timeout c)
           (source_address c) (kw_if_true (socket_options c));
         tunnel_called (Some (Plain (created c))) (Some th)])%list.
Proof.
  intros Hth Htruthy Htcp Hr Hv Htun.
  change (wp VerifiedHTTPSConnection_connect (c, w) (fun out s' =>
    out = Raise e
    /\ auto_open (fst s') = auto_open c
    /\ trace (snd s')
       = (trace w ++
          [create_connection_called (host c, port c) (timeout c)
             (source_address c) (kw_if_true (socket_options c));
           tunnel_called (Some (Plain (created c))) (Some th)])%list)).
  wp_run; simpl in *; rewrite ?Hth in *; simpl in *; try congruence;
    rewrite <- app_assoc; simpl;
    match goal with
    | H1 : tcp_connect _ _ _ _ = (Ok tt, ?x),
      H2 : httplib_tunnel _ _ ?x = (Raise ?y, ?z) |- _ =>
        rewrite Htcp in H1; injection H1 as <-;
        rewrite Htun in H2; injection H2 as <- <-
    end;
    repeat split.
Qed.

(** *** More on the connections *)

(** X9: when the TCP connect fails, [connect] of every class ends there:
    the exception of [_new_conn] goes to the caller, no attribute of the
    object has been rebound (no socket, [auto_open] and [is_verified] as
    they were), and nothing after [create_connection] has been called. *)
Theorem failed_tcp_connect_changes_nothing (c : connection) (w : world)
    (e : exn) (env' : env) :
  tcp_connect (host c, port c) (timeout c) (source_address c) (outside w)
    = (Raise e, env') ->
  connect (c, w) = (Raise (connect_error c e), (c, after_create c w)).
Proof.
  intros H. apply wp_eq. unfold after_create. rewrite H. simpl.
  wp_run; try congruence;
    match goal with
    | H1 : tcp_connect _ _ _ _ = (Raise ?x, ?y) |- _ =>
        rewrite H in H1; injection H1 as <- <-; reflexivity
    end.
Qed.

(** X10: [connect] of every class, however it ends, rebinds none of the
    settings: class, timeout, source address, socket options, tunnel
    target, key and certificate files, [cert_reqs], [ca_certs],
    [ssl_version] and the two assertions.  Without a tunnel target, host,
    port and [auto_open] stay as well; with one, host and port are
    [_tunnel]'s to rebind and [auto_open] is left as it was or put to 0. *)
Theorem connect_keeps_settings (c : connection) (w : world) :
  same_settings c (fst (snd (connect (c, w))))
  /\ (truthy (_tunnel_host c) = false ->
      host (fst (snd (connect (c, w)))) = host c
      /\ port (fst (snd (connect (c, w)))) = port c
      /\ auto_open (fst (snd (connect (c, w)))) = auto_open c)
  /\ (auto_open (fst (snd (connect (c, w)))) = auto_open c
      \/ (truthy (_tunnel_host c) = true
          /\ auto_open (fst (snd (connect (c, w)))) = 0%Z)).
Proof.
  change (wp connect (c, w) (fun _ s' =>
    same_settings c (fst s')
    /\ (truthy (_tunnel_host c) = false ->
        host (fst s') = host c /\ port (fst s') = port c
        /\ auto_open (fst s') = auto_open c)
    /\ (auto_open (fst s') = auto_open c
        \/ (truthy (_tunnel_host c) = true /\ auto_open (fst s') = 0%Z)))).
  wp_run; simpl in *;
    (split; [unfold same_settings; simpl; repeat split |]);
    (split;
     [ intros Hno; try congruence; repeat split
     | first [ left; reflexivity
             | right; split;
               [first [assumption | reflexivity] | reflexivity] ] ]).
Qed.

Lemma connect_binds_sock (c : connection) (w : world) :
  wp connect (c, w) (fun out s' =>
    is_ok out = true ->
    match cls c with
    | HTTP => sock (fst s') = Some (Plain (created c))
    | UnverifiedHTTPS | VerifiedHTTPS =>
        exists s, sock (fst s') = Some (Tls s) /\ wrapped s = created c
    end).
Proof.
  wp_run; simpl in *; intros Hok; try discriminate Hok;
    repeat match goal with H : cls _ = _ |- _ => rewrite H end;
    try reflexivity; eexists; split; reflexivity.
Qed.

(** X11: when [connect] returns, [self.sock] is bound: to the socket
    [create_connection] made for the connection's host, port and timeout
    for an [HTTPConnection], and to a TLS socket wrapped around that socket
    for the two HTTPS classes. *)
Theorem connect_binds_the_socket (c c' : connection) (w w' : world) :
  connect (c, w) = (Ok tt, (c', w')) ->
  match cls c with
  | HTTP => sock c' = Some (Plain (created c))
  | UnverifiedHTTPS | VerifiedHTTPS =>
      exists s, sock c' = Some (Tls s) /\ wrapped s = created c
  end
  /\ peer (created c) = (host c, port c)
  /\ sock_timeout (created c) = timeout c
  /\ bound_to (created c) = source_address c.
Proof.
  intros H. pose proof (connect_binds_sock c w) as O. unfold wp in O.
  rewrite H in O. simpl in O. split; [apply O; reflexivity |].
  repeat split.
Qed.

(** X12: the unverified HTTPS connect calls [create_connection], then
    [_tunnel] if a tunnel target is set, then [ssl.wrap_socket] with the key
    and certificate files, and nothing else.  It stops at the first that
    fails: after a failed TCP connect only [create_connection] has been
    called, after a failed tunnel handshake [ssl.wrap_socket] has not, and
    otherwise the outcome is that of the wrap.  [ssl_wrap_socket],
    [assert_fingerprint] and [match_hostname] are never called, whatever
    [cert_reqs] and the assertions are. *)
Theorem unverified_connect_calls (c : connection) (w : world)
    (a1 a2 : res unit) (e1 e2 : env) :
  tcp_connect (host c, port c) (timeout c) (source_address c) (outside w)
    = (a1, e1) ->
  httplib_tunnel (Some (Plain (created c))) (_tunnel_host c) e1 = (a2, e2) ->
  match a1 with
  | Raise e =>
      fst (HTTPSConnection_connect (c, w)) = Raise (connect_error c e)
      /\ trace (snd (snd (HTTPSConnection_connect (c, w))))
         = (trace w ++
            [create_connection_called (host c, port c) (timeout c)
               (source_address c) (kw_if_true (socket_options c))])%list
  | Ok _ =>
      if truthy (_tunnel_host c)
      then
        match a2 with
        | Raise e =>
            fst (HTTPSConnection_connect (c, w)) = Raise e
            /\ trace (snd (snd (HTTPSConnection_connect (c, w))))
               = (trace w ++
                  [create_connection_called (host c, port c) (timeout c)
                     (source_address c) (kw_if_true (socket_options c));
                   tunnel_called (Some (Plain (created c)))
                     (_tunnel_host c)])%list
        | Ok _ =>
            fst (HTTPSConnection_connect (c, w))
            = match fst (ssl_wrap (created c) (key_file c) (cert_file c)
                           e2) with
              | Ok _ => Ok tt
              | Raise e => Raise e
              end
            /\ trace (snd (snd (HTTPSConnection_connect (c, w))))
               = (trace w ++ unverified_calls c)%list
        end
      else
        fst (HTTPSConnection_connect (c, w))
        = match fst (ssl_wrap (created c) (key_file c) (cert_file c) e1) with
          | Ok _ => Ok tt
          | Raise e => Raise e
          end
        /\ trace (snd (snd (HTTPSConnection_connect (c, w))))
           = (trace w ++ unverified_calls c)%list
  end.
Proof.
  intros Htcp Htun.
  change (wp HTTPSConnection_connect (c, w) (fun out s' =>
    match a1 with
    | Raise e =>
        out = Raise (connect_error c e)
        /\ trace (snd s')
           = (trace w ++
              [create_connection_called (host c, port c) (timeout c)
                 (source_address c) (kw_if_true (socket_options c))])%list
    | Ok _ =>
        if truthy (_tunnel_host c)
        then
          match a2 with
          | Raise e =>
              out = Raise e
              /\ trace (snd s')
                 = (trace w ++
                    [create_connection_called (host c, port c) (timeout c)
                       (source_address c) (kw_if_true (socket_options c));
                     tunnel_called (Some (Plain (created c)))
                       (_tunnel_host c)])%list
          | Ok _ =>
              out
              = match fst (ssl_wrap (created c) (key_file c) (cert_file c)
                             e2) with
                | Ok _ => Ok tt
                | Raise e => Raise e
                end
              /\ trace (snd s') = (trace w ++ unverified_calls c)%list
          end
        else
          out
          = match fst (ssl_wrap (created c) (key_file c) (cert_file c)
                         e1) with
            | Ok _ => Ok tt
            | Raise e => Raise e
            end
          /\ trace (snd s') = (trace w ++ unverified_calls c)%list
    end)).
  wp_run; simpl in *; merge_answers; simpl;
    repeat match goal with H : truthy _ = _ |- _ => rewrite H end;
    unfold unverified_calls;
    repeat match goal with H : truthy _ = _ |- _ => rewrite H end;
    repeat match goal with H : ssl_wrap _ _ _ _ = _ |- _ => rewrite H end;
    repeat rewrite <- app_assoc; simpl; split; reflexivity.
Qed.

(** X13: a verified connect whose resolved level is [CERT_NONE] makes no
    check on the peer certificate and reads neither assertion (bound or
    not): once the wrap is done it returns, with [is_verified] false. *)
Theorem cert_none_skips_checks (c c1 : connection) (w w1 : world)
    (h : string) :
  connect_wrap (c, w) = (Ok (CERT_NONE, h), (c1, w1)) ->
  VerifiedHTTPSConnection_connect (c, w)
  = (Ok tt, (set_is_verified false c1, w1)).
Proof.
  intros Hw. unfold VerifiedHTTPSConnection_connect.
  rewrite (bind_ok _ _ _ _ _ Hw). simpl fst; simpl snd.
  destruct w1 as [o1 t1]. apply wp_eq.
  wp_run; try (simpl in *; discriminate); reflexivity.
Qed.

(** X14: [assert_fingerprint] and [assert_hostname] have no class default.
    A verified connect whose resolved level is not [CERT_NONE] on an object
    where [set_cert] never bound them raises [AttributeError] after the
    TLS wrap: the wrapped socket is already bound, no check has been made
    and [is_verified] is not bound. *)
Theorem unbound_assertions_raise (c c1 : connection) (w w1 : world) (r : Z)
    (h : string) :
  connect_wrap (c, w) = (Ok (r, h), (c1, w1)) ->
  r <> CERT_NONE ->
  (assert_fingerprint c = None ->
     VerifiedHTTPSConnection_connect (c, w)
     = (Raise (AttributeError "assert_fingerprint"), (c1, w1)))
  /\ (forall fp, assert_fingerprint c = Some fp -> truthy fp = false ->
        assert_hostname c = None ->
        VerifiedHTTPSConnection_connect (c, w)
        = (Raise (AttributeError "assert_hostname"), (c1, w1)))
  /\ (exists s, sock c1 = Some (Tls s))
  /\ is_verified c1 = is_verified c.
Proof.
  intros Hw Hr.
  pose proof (connect_wrap_outcome c w) as O. unfold wp in O.
  rewrite Hw in O. simpl in O.
  destruct O as (_ & _ & (s & Hs & _) & Hfp1 & Ha1).
  assert (Hne : negb (r =? CERT_NONE)%Z = true).
  { apply negb_true_iff, Z.eqb_neq, Hr. }
  assert (Start : forall k : Z * string -> M state unit,
            bind connect_wrap k (c, w) = k (r, h) (c1, w1)).
  { intros k. apply bind_ok. exact Hw. }
  assert (V : is_verified c1 = is_verified c).
  { assert (G : wp connect_wrap (c, w)
                  (fun _ s' => is_verified (fst s') = is_verified c))
      by (wp_run; reflexivity).
    unfold wp in G. rewrite Hw in G. exact G. }
  unfold VerifiedHTTPSConnection_connect. rewrite Start. simpl fst; simpl snd.
  destruct w1 as [o1 t1].
  split; [| split; [| split; [exists s; exact Hs | exact V]]].
  - intros Hn. rewrite Hn in Hfp1. apply wp_eq. wp_run. reflexivity.
  - intros fp Hfp Ht Hn. rewrite Hfp in Hfp1. rewrite Hn in Ha1.
    apply wp_eq. wp_run. reflexivity.
Qed.

(** X15: the options applied to the new socket as a function of the
    [socket_options] keyword: the default (Nagle's algorithm off) when the
    keyword is not given, none when it is [None] or the empty list, and the
    list itself otherwise. *)
Theorem applied_options_by_keyword (k : class) (h : string) (p : option Z)
    (t : timeout_value) (sa : option address)
    (kw : option (option (list sockopt))) (w : world) (conn : raw_socket)
    (s' : state) :
  _new_conn (__init__ k h p t sa kw, w) = (Ok conn, s') ->
  applied_options conn =
    match kw with
    | None => [(IPPROTO_TCP, TCP_NODELAY, 1%Z)]
    | Some None => []
    | Some (Some l) => l
    end.
Proof.
  intros H. rewrite new_conn_eq in H.
  destruct (fst (tcp_connect _ _ _ _)) as [[] | e].
  - inversion H; subst. unfold created; simpl.
    destruct kw as [[[| o l] |] |]; reflexivity.
  - destruct e; discriminate H.
Qed.

(** X16: [HTTPConnection.connect] with a tunnel target binds the socket
    just made as [self.sock] and runs the handshake over it.  When the
    handshake returns, [auto_open] is 0 and [self.sock] is that socket.
    When it raises, the exception goes to the caller with [auto_open] as it
    was, and [self.sock] is that socket, or [None] if [_tunnel] closed the
    connection.  Host and port are what [_tunnel] left. *)
Theorem http_connect_through_tunnel (c : connection) (w : world)
    (th : string) (e1 e2 : env) (answer : res unit) :
  _tunnel_host c = Some th -> truthy (Some th) = true ->
  tcp_connect (host c, port c) (timeout c) (source_address c) (outside w)
    = (Ok tt, e1) ->
  httplib_tunnel (Some (Plain (created c))) (Some th) e1 = (answer, e2) ->
  fst (HTTPConnection_connect (c, w)) = answer
  /\ trace (snd (snd (HTTPConnection_connect (c, w))))
     = (trace w ++
        [create_connection_called (host c, port c) (timeout c)
           (source_address c) (kw_if_true (socket_options c));
         tunnel_called (Some (Plain (created c))) (Some th)])%list
  /\ match answer with
     | Ok _ =>
         auto_open (fst (snd (HTTPConnection_connect (c, w)))) = 0%Z
         /\ sock (fst (snd (HTTPConnection_connect (c, w))))
            = Some (Plain (created c))
     | Raise _ =>
         auto_open (fst (snd (HTTPConnection_connect (c, w)))) = auto_open c
         /\ sock (fst (snd (HTTPConnection_connect (c, w))))
            = (if tunnel_closes (Some (Plain (created c))) (Some th) e1
               then None
               else Some (Plain (created c)))
     end
  /\ (host (fst (snd (HTTPConnection_connect (c, w)))),
      port (fst (snd (HTTPConnection_connect (c, w)))))
     = tunnel_hostport (host c, port c) (Some th) e1.
Proof.
  intros Hth Htruthy Htcp Htun.
  change (wp HTTPConnection_connect (c, w) (fun out s' =>
    out = answer
    /\ trace (snd s')
       = (trace w ++
          [create_connection_called (host c, port c) (timeout c)
             (source_address c) (kw_if_true (socket_options c));
           tunnel_called (Some (Plain (created c))) (Some th)])%list
    /\ match answer with
       | Ok _ =>
           auto_open (fst s') = 0%Z
           /\ sock (fst s') = Some (Plain (created c))
       | Raise _ =>
           auto_open (fst s') = auto_open c
           /\ sock (fst s')
              = (if tunnel_closes (Some (Plain (created c))) (Some th) e1
                 then None
                 else Some (Plain (created c)))
       end
    /\ (host (fst s'), port (fst s'))
       = tunnel_hostport (host c, port c) (Some th) e1)).
  wp_run; simpl in *; rewrite ?Hth in *; simpl in *; try congruence;
    merge_answers; simpl;
    repeat match goal with
           | H : tunnel_closes _ _ _ = _ |- _ => rewrite H
           | u : unit |- _ => destruct u
           end;
    rewrite <- app_assoc; simpl;
    repeat split; symmetry; apply surjective_pairing.
Qed.

Lemma kw_lookup_del_same (key : string) (kw : kwargs) :
  kw_lookup key (kw_del key kw) = None.
Proof.
  induction kw as [| [k v] rest IH]; simpl; [reflexivity |].
  destruct (String.eqb k key) eqn:E; [exact IH |]. simpl. rewrite E. exact IH.
Qed.

Lemma kw_lookup_del_other (key key' : string) (kw : kwargs) :
  key <> key' -> kw_lookup key (kw_del key' kw) = kw_lookup key kw.
Proof.
  intros Hne. induction kw as [| [k v] rest IH]; simpl; [reflexivity |].
  destruct (String.eqb k key') eqn:E'.
  - apply String.eqb_eq in E'. subst k.
    destruct (String.eqb key' key) eqn:E; [| exact IH].
    apply String.eqb_eq in E. congruence.
  - simpl. destruct (String.eqb k key); [reflexivity | exact IH].
Qed.

(** X17: of the keywords given to the constructor, [socket_options] never
    reaches the superclass constructor, [strict] does not on Python 3 and
    [source_address] does not before Python 2.7; yet [self.source_address]
    is the address given (or [None]) on every version, and
    [self.socket_options] is the value given or else the default. *)
Theorem init_keywords_kept_back (PY3 before_2_7 : bool) (kw : kwargs) :
  kw_lookup "socket_options" (super_kw (__init__kw PY3 before_2_7 kw)) = None
  /\ kw_lookup "strict" (super_kw (__init__kw true before_2_7 kw)) = None
  /\ kw_lookup "source_address" (super_kw (__init__kw PY3 true kw)) = None
  /\ self_source_address (__init__kw PY3 before_2_7 kw)
     = kw_get "source_address" kw
  /\ self_socket_options (__init__kw PY3 before_2_7 kw)
     = match kw_lookup "socket_options" kw with
       | Some v => v
       | None => py_options default_socket_options
       end.
Proof.
  unfold __init__kw, kw_pop, kw_get; simpl.
  split; [apply kw_lookup_del_same |].
  split.
  { rewrite kw_lookup_del_other by discriminate.
    destruct before_2_7; [rewrite kw_lookup_del_other by discriminate |];
      apply kw_lookup_del_same. }
  split.
  { rewrite kw_lookup_del_other by discriminate. apply kw_lookup_del_same. }
  split.
  { destruct PY3; [rewrite kw_lookup_del_other by discriminate |];
      reflexivity. }
  destruct PY3, before_2_7;
    repeat rewrite kw_lookup_del_other by discriminate; reflexivity.
Qed.

(** X18: every other keyword is handed to the superclass constructor with
    the value given, on every version. *)
Theorem init_keywords_forwarded (PY3 before_2_7 : bool) (kw : kwargs)
    (key : string) :
  key <> "strict" -> key <> "source_address" -> key <> "socket_options" ->
  kw_lookup key (super_kw (__init__kw PY3 before_2_7 kw)) = kw_lookup key kw.
Proof.
  intros H1 H2 H3. unfold __init__kw, kw_pop; simpl.
  rewrite kw_lookup_del_other by exact H3.
  destruct before_2_7; [rewrite kw_lookup_del_other by exact H2 |];
    (destruct PY3; [rewrite kw_lookup_del_other by exact H1 |]); reflexivity.
Qed.

(** X19: whether or not [ssl] could be imported, the module never leaves
    [HTTPSConnection] bound to [DummyConnection]: the class statement
    rebinds it, and it ends as [VerifiedHTTPSConnection] with [ssl] and as
    the unverified class without, [UnverifiedHTTPSConnection] being bound
    only with [ssl]. *)
Theorem module_names (ssl_imported : bool) :
  name_lookup "HTTPSConnection" (load_module ssl_imported)
  = Some (class_of (if ssl_imported then VerifiedHTTPS else UnverifiedHTTPS))
  /\ name_lookup "HTTPSConnection" (load_module ssl_imported)
     <> Some DummyConnection
  /\ name_lookup "UnverifiedHTTPSConnection" (load_module ssl_imported)
     = (if ssl_imported then Some (class_of UnverifiedHTTPS) else None)
  /\ name_lookup "HTTPConnection" (load_module ssl_imported)
     = Some (class_of HTTP).
Proof.
  destruct ssl_imported; repeat split; discriminate.
Qed.

(** X20: [set_cert] rebinds the key and certificate files along with the
    verification settings, to [None] when they are not given: the TLS wrap
    of the next connect is called with the files, level and trust store of
    [set_cert], and the files given to the constructor are forgotten. *)
Theorem set_cert_decides_the_wrap (c0 : connection) (w : world)
    (key' cert' : option string) (reqs : setting) (ca : option string)
    (ah : hostname_assertion) (af : option string) (r v : Z) (e1 : env) :
  truthy (_tunnel_host c0) = false ->
  tcp_connect (host c0, port c0) (timeout c0) (source_address c0) (outside w)
    = (Ok tt, e1) ->
  resolve_cert_reqs reqs = Ok r ->
  resolve_ssl_version (ssl_version c0) = Ok v ->
  trace (snd (snd (connect_wrap (set_cert key' cert' reqs ca ah af c0, w))))
  = (trace w ++
     [create_connection_called (host c0, port c0) (timeout c0)
        (source_address c0) (kw_if_true (socket_options c0));
      ssl_wrap_socket_called (created c0) key' cert' r ca (host c0) v])%list.
Proof.
  intros Hno Htcp Hr Hv.
  change (wp connect_wrap (set_cert key' cert' reqs ca ah af c0, w)
            (fun _ s' =>
               trace (snd s')
               = (trace w ++
                  [create_connection_called (host c0, port c0) (timeout c0)
                     (source_address c0) (kw_if_true (socket_options c0));
                   ssl_wrap_socket_called (created c0) key' cert' r ca
                     (host c0) v])%list)).
  unfold set_cert.
  wp_run; simpl in *; try congruence;
    repeat match goal with
           | H1 : ?t = Ok ?x, H2 : ?t = Ok ?y |- _ =>
               is_var x; assert (x = y) by congruence; subst x; clear H1
           end;
    rewrite <- app_assoc; reflexivity.
Qed.

End Facts.

(** *** The connections on concrete inputs *)

#[local] Existing Instance Doubles.scripted.

Lemma new_conn_failure_witness :
  tcp_connect ("example.org", 80%Z) (Seconds 3) None
    (outside Doubles.stalled)
    = (Raise SocketTimeout, outside Doubles.stalled)
  /\ fst (_new_conn (Doubles.plain_connection, Doubles.stalled))
     = Raise (ConnectTimeoutError "example.org" (Seconds 3)).
Proof.
  split; [reflexivity |].
  exact (proj1 (new_conn_failure Doubles.plain_connection Doubles.stalled
                  SocketTimeout (outside Doubles.stalled) eq_refl) eq_refl).
Defined.

(** A refused connect goes through as the socket error it is. *)
Example refused_connect :
  fst (_new_conn (Doubles.plain_connection, Doubles.refusing))
  = Raise (SocketError 111).
Proof. reflexivity. Qed.

Lemma socket_options_roundtrip_witness :
  _new_conn (Doubles.bare_connection, Doubles.reachable)
    = (Ok (created Doubles.bare_connection),
       (Doubles.bare_connection,
        after_create Doubles.bare_connection Doubles.reachable))
  /\ applied_options (created Doubles.bare_connection) = [].
Proof.
  split; [reflexivity |].
  exact (proj1 (proj2 (socket_options_roundtrip HTTP "example.org" None
                         (Seconds 3) None [] Doubles.reachable
                         (created Doubles.bare_connection) _ eq_refl))).
Defined.

(** Options given are applied as given; options not given are the
    default. *)
Example given_and_default_options :
  fst (_new_conn
         (__init__ HTTP "example.org" None (Seconds 3) None
            (Some (Some Doubles.keepalive_options)), Doubles.reachable))
  = Ok (mk_raw ("example.org", 80%Z) (Seconds 3) None
          Doubles.keepalive_options)
  /\ fst (_new_conn (Doubles.plain_connection, Doubles.reachable))
     = Ok (mk_raw ("example.org", 80%Z) (Seconds 3) None
             [(IPPROTO_TCP, TCP_NODELAY, 1%Z)]).
Proof. split; reflexivity. Qed.


(** With a mismatched hostname and no fingerprint, connect raises and
    [is_verified] stays false; the unverified variant connects and stays
    unverified. *)
Example mismatch_is_not_verified :
  fst (connect (Doubles.mismatched_connection, Doubles.reachable))
  = Raise (CertificateError "hostname doesn't match")
  /\ is_verified
       (fst (snd (connect (Doubles.mismatched_connection,
                           Doubles.reachable)))) = false
  /\ fst (connect
            (HTTPS__init__ UnverifiedHTTPS "example.org" None None None
               (Seconds 3) None None, Doubles.reachable)) = Ok tt
  /\ is_verified
       (fst (snd (connect
            (HTTPS__init__ UnverifiedHTTPS "example.org" None None None
               (Seconds 3) None None, Doubles.reachable)))) = false.
Proof. repeat split. Qed.

Lemma verified_checks_witness :
  connect_wrap (Doubles.asserted_connection, Doubles.reachable)
    = (Ok (CERT_REQUIRED, "other.example"),
       snd (connect_wrap (Doubles.asserted_connection, Doubles.reachable)))
  /\ CERT_REQUIRED <> CERT_NONE
  /\ assert_fingerprint Doubles.asserted_connection = Some None
  /\ assert_hostname Doubles.asserted_connection
     = Some (ah_Name "example.org")
  /\ hostname_check Doubles.example_peer "other.example"
     = Raise (CertificateError "hostname doesn't match")
  /\ VerifiedHTTPSConnection_connect
       (Doubles.asserted_connection, Doubles.reachable)
     = conclude CERT_REQUIRED
         (fst (snd (connect_wrap (Doubles.asserted_connection,
                                  Doubles.reachable))))
         (snd (snd (connect_wrap (Doubles.asserted_connection,
                                  Doubles.reachable))))
         (Ok tt)
         [match_hostname_called Doubles.example_peer "example.org" true].
Proof.
  assert (N : CERT_REQUIRED <> CERT_NONE) by discriminate.
  assert (E : "example.org" <> "") by discriminate.
  split; [reflexivity |]. split; [exact N |]. split; [reflexivity |].
  split; [reflexivity |]. split; [reflexivity |].
  destruct (verified_checks Doubles.asserted_connection
              (fst (snd (connect_wrap (Doubles.asserted_connection,
                                       Doubles.reachable))))
              Doubles.reachable
              (snd (snd (connect_wrap (Doubles.asserted_connection,
                                       Doubles.reachable))))
              CERT_REQUIRED "other.example" None (ah_Name "example.org")
              eq_refl N eq_refl eq_refl) as [_ [s [Hs [_ [Hn _]]]]].
  rewrite (Hn "example.org" eq_refl eq_refl E).
  injection Hs as <-. reflexivity.
Defined.

(** A pinned fingerprint decides alone: the connect to [other.example]
    returns although the certificate names [example.org] only, and
    [match_hostname] is not called. *)
Example fingerprint_goes_first :
  hostname_check Doubles.example_peer "other.example"
  = Raise (CertificateError "hostname doesn't match")
  /\ fst (VerifiedHTTPSConnection_connect
            (Doubles.pinned_connection, Doubles.reachable)) = Ok tt
  /\ trace (snd (snd (VerifiedHTTPSConnection_connect
                        (Doubles.pinned_connection, Doubles.reachable))))
     = [create_connection_called ("other.example", 443%Z) (Seconds 3) None
          (Some [(IPPROTO_TCP, TCP_NODELAY, 1%Z)]);
        ssl_wrap_socket_called
          (created Doubles.pinned_connection) None None CERT_REQUIRED
          (Some "/etc/ca.pem") "other.example" CERT_NONE;
        assert_fingerprint_called "der:example.org" "der:example.org" true].
Proof. repeat split. Qed.



(** The calls a tunnelled verified connect makes, in order: the peer is
    checked against the tunnel target [example.org], not the host
    [other.example] the socket was opened to. *)
Example tunnelled_connect_trace :
  VerifiedHTTPSConnection_connect
    (Doubles.tunnelled "example.org" Doubles.mismatched_connection,
     Doubles.reachable)
  = (Ok tt,
     (set_is_verified true
        (set_sock
           (Some (Tls (mk_ssl
              (created (Doubles.tunnelled "example.org"
                          Doubles.mismatched_connection))
              Doubles.example_peer "der:example.org")))
           (set_auto_open 0
              (Doubles.tunnelled "example.org"
                 Doubles.mismatched_connection))),
      {| outside := outside Doubles.reachable;
         trace :=
           [create_connection_called ("other.example", 443%Z) (Seconds 3)
              None (Some [(IPPROTO_TCP, TCP_NODELAY, 1%Z)]);
            tunnel_called
              (Some (Plain (created (Doubles.tunnelled "example.org"
                                       Doubles.mismatched_connection))))
              (Some "example.org");
            ssl_wrap_socket_called
              (created (Doubles.tunnelled "example.org"
                          Doubles.mismatched_connection))
              None None CERT_REQUIRED (Some "/etc/ca.pem") "example.org"
              CERT_NONE;
            match_hostname_called Doubles.example_peer "example.org" true]
      |})).
Proof. reflexivity. Qed.

(** *** The extras on concrete inputs *)

Lemma failed_tcp_connect_changes_nothing_witness :
  tcp_connect ("example.org", 80%Z) (Seconds 3) None
    (outside Doubles.stalled)
    = (Raise SocketTimeout, outside Doubles.stalled)
  /\ connect (Doubles.plain_connection, Doubles.stalled)
     = (Raise (ConnectTimeoutError "example.org" (Seconds 3)),
        (Doubles.plain_connection,
         after_create Doubles.plain_connection Doubles.stalled)).
Proof.
  split; [reflexivity |].
  exact (failed_tcp_connect_changes_nothing Doubles.plain_connection
           Doubles.stalled SocketTimeout (outside Doubles.stalled) eq_refl).
Defined.

Lemma connect_binds_the_socket_witness :
  connect (Doubles.verified_connection, Doubles.reachable)
    = (Ok tt, snd (connect (Doubles.verified_connection, Doubles.reachable)))
  /\ exists s,
       sock (fst (snd (connect (Doubles.verified_connection,
                                Doubles.reachable)))) = Some (Tls s)
       /\ wrapped s = created Doubles.verified_connection.
Proof.
  split; [reflexivity |].
  exact (proj1 (connect_binds_the_socket Doubles.verified_connection
                  (fst (snd (connect (Doubles.verified_connection,
                                      Doubles.reachable))))
                  Doubles.reachable
                  (snd (snd (connect (Doubles.verified_connection,
                                      Doubles.reachable))))
                  eq_refl)).
Defined.

Lemma cert_none_skips_checks_witness :
  connect_wrap (Doubles.bare_verified, Doubles.reachable)
    = (Ok (CERT_NONE, "example.org"),
       snd (connect_wrap (Doubles.bare_verified, Doubles.reachable)))
  /\ assert_fingerprint Doubles.bare_verified = None
  /\ fst (VerifiedHTTPSConnection_connect
            (Doubles.bare_verified, Doubles.reachable)) = Ok tt.
Proof.
  split; [reflexivity |]. split; [reflexivity |].
  exact (f_equal fst
           (cert_none_skips_checks Doubles.bare_verified
              (fst (snd (connect_wrap (Doubles.bare_verified,
                                       Doubles.reachable))))
              Doubles.reachable
              (snd (snd (connect_wrap (Doubles.bare_verified,
                                       Doubles.reachable))))
              "example.org" eq_refl)).
Defined.

Lemma unbound_assertions_raise_witness :
  connect_wrap (Doubles.unset_connection, Doubles.reachable)
    = (Ok (CERT_REQUIRED, "example.org"),
       snd (connect_wrap (Doubles.unset_connection, Doubles.reachable)))
  /\ CERT_REQUIRED <> CERT_NONE
  /\ assert_fingerprint Doubles.unset_connection = None
  /\ fst (VerifiedHTTPSConnection_connect
            (Doubles.unset_connection, Doubles.reachable))
     = Raise (AttributeError "assert_fingerprint").
Proof.
  assert (N : CERT_REQUIRED <> CERT_NONE) by discriminate.
  split; [reflexivity |]. split; [exact N |]. split; [reflexivity |].
  exact (f_equal fst
           (proj1 (unbound_assertions_raise Doubles.unset_connection
                     (fst (snd (connect_wrap (Doubles.unset_connection,
                                              Doubles.reachable))))
                     Doubles.reachable
                     (snd (snd (connect_wrap (Doubles.unset_connection,
                                              Doubles.reachable))))
                     CERT_REQUIRED "example.org" eq_refl N) eq_refl)).
Defined.

Lemma applied_options_by_keyword_witness :
  _new_conn (Doubles.plain_connection, Doubles.reachable)
    = (Ok (created Doubles.plain_connection),
       (Doubles.plain_connection,
        after_create Doubles.plain_connection Doubles.reachable))
  /\ applied_options (created Doubles.plain_connection)
     = [(IPPROTO_TCP, TCP_NODELAY, 1%Z)].
Proof.
  split; [reflexivity |].
  exact (applied_options_by_keyword HTTP "example.org" None (Seconds 3) None
           None Doubles.reachable (created Doubles.plain_connection) _
           eq_refl).
Defined.

Lemma http_connect_through_tunnel_witness :
  _tunnel_host (Doubles.tunnelled "target.example" Doubles.plain_connection)
    = Some "target.example"
  /\ httplib_tunnel
       (Some (Plain (created (Doubles.tunnelled "example.org"
                                Doubles.plain_connection))))
       (Some "target.example") (outside Doubles.old_proxy_refusing)
     = (Raise (SocketError 0), outside Doubles.old_proxy_refusing)
  /\ fst (HTTPConnection_connect
            (Doubles.tunnelled "target.example" Doubles.plain_connection,
             Doubles.old_proxy_refusing)) = Raise (SocketError 0)
  /\ auto_open
       (fst (snd (HTTPConnection_connect
                    (Doubles.tunnelled "target.example" Doubles.plain_connection,
                     Doubles.old_proxy_refusing)))) = 1%Z
  /\ sock
       (fst (snd (HTTPConnection_connect
                    (Doubles.tunnelled "target.example" Doubles.plain_connection,
                     Doubles.old_proxy_refusing)))) = None.
Proof.
  split; [reflexivity |]. split; [reflexivity |].
  destruct (http_connect_through_tunnel
              (Doubles.tunnelled "target.example" Doubles.plain_connection)
              Doubles.old_proxy_refusing "target.example"
              (outside Doubles.old_proxy_refusing)
              (outside Doubles.old_proxy_refusing) (Raise (SocketError 0))
              eq_refl eq_refl eq_refl eq_refl) as [H1 [_ [[H2 H3] _]]].
  split; [exact H1 |]. split; [exact H2 | exact H3].
Defined.

(** The same connect through a proxy that answers 200: the socket stays
    bound and the connection is marked as not reusable. *)
Example http_tunnel_accepted :
  fst (HTTPConnection_connect
         (Doubles.tunnelled "target.example" Doubles.plain_connection,
          Doubles.reachable)) = Ok tt
  /\ auto_open
       (fst (snd (HTTPConnection_connect
                    (Doubles.tunnelled "target.example" Doubles.plain_connection,
                     Doubles.reachable)))) = 0%Z
  /\ host
       (fst (snd (HTTPConnection_connect
                    (Doubles.tunnelled "target.example" Doubles.plain_connection,
                     Doubles.old_proxy_refusing)))) = "target.example".
Proof. repeat split. Qed.

Lemma unverified_connect_calls_witness :
  tcp_connect ("example.org", 443%Z) (Seconds 3) None
    (outside Doubles.old_proxy_refusing)
    = (Ok tt, outside Doubles.old_proxy_refusing)
  /\ httplib_tunnel
       (Some (Plain (created (Doubles.tunnelled "example.org"
                                Doubles.unverified_connection))))
       (Some "example.org") (outside Doubles.old_proxy_refusing)
     = (Raise (SocketError 0), outside Doubles.old_proxy_refusing)
  /\ fst (HTTPSConnection_connect
            (Doubles.tunnelled "example.org" Doubles.unverified_connection,
             Doubles.old_proxy_refusing)) = Raise (SocketError 0)
  /\ trace (snd (snd (HTTPSConnection_connect
            (Doubles.tunnelled "example.org" Doubles.unverified_connection,
             Doubles.old_proxy_refusing))))
     = [create_connection_called ("example.org", 443%Z) (Seconds 3) None
          (Some [(IPPROTO_TCP, TCP_NODELAY, 1%Z)]);
        tunnel_called
          (Some (Plain (created (Doubles.tunnelled "example.org"
                                   Doubles.unverified_connection))))
          (Some "example.org")].
Proof.
  split; [reflexivity |]. split; [reflexivity |].
  exact (unverified_connect_calls
           (Doubles.tunnelled "example.org" Doubles.unverified_connection)
           Doubles.old_proxy_refusing (Ok tt) (Raise (SocketError 0))
           (outside Doubles.old_proxy_refusing)
           (outside Doubles.old_proxy_refusing) eq_refl eq_refl).
Defined.


Lemma init_keywords_forwarded_witness :
  "timeout" <> "strict" /\ "timeout" <> "source_address"
  /\ "timeout" <> "socket_options"
  /\ kw_lookup "timeout" (super_kw (__init__kw true false
                                      Doubles.pool_keywords))
     = Some (py_str "3").
Proof.
  assert (H1 : "timeout" <> "strict") by discriminate.
  assert (H2 : "timeout" <> "source_address") by discriminate.
  assert (H3 : "timeout" <> "socket_options") by discriminate.
  split; [exact H1 |]. split; [exact H2 |]. split; [exact H3 |].
  exact (init_keywords_forwarded true false Doubles.pool_keywords "timeout"
           H1 H2 H3).
Defined.

(** The constructor on the pool's keywords, on Python 3 and on Python 2.6:
    what it binds and what it hands on. *)
Example init_on_pool_keywords :
  __init__kw true false Doubles.pool_keywords
  = {| self_source_address := py_address ("10.0.0.1", 0%Z);
       self_socket_options := py_options [];
       super_kw := [("timeout", py_str "3");
                    ("source_address", py_address ("10.0.0.1", 0%Z))] |}
  /\ __init__kw false true Doubles.pool_keywords
     = {| self_source_address := py_address ("10.0.0.1", 0%Z);
          self_socket_options := py_options [];
          super_kw := [("strict", py_bool false); ("timeout", py_str "3")] |}.
Proof. split; reflexivity. Qed.

Lemma set_cert_decides_the_wrap_witness :
  truthy (_tunnel_host
            (HTTPS__init__ VerifiedHTTPS "example.org" None
               (Some "client.key") (Some "client.pem") (Seconds 3) None None))
    = false
  /\ trace (snd (snd (connect_wrap
       (set_cert None None (s_Name "CERT_REQUIRED") (Some "/etc/ca.pem")
          ah_None None
          (HTTPS__init__ VerifiedHTTPS "example.org" None
             (Some "client.key") (Some "client.pem") (Seconds 3) None None),
        Doubles.reachable))))
     = [create_connection_called ("example.org", 443%Z) (Seconds 3) None
          (Some [(IPPROTO_TCP, TCP_NODELAY, 1%Z)]);
        ssl_wrap_socket_called
          (mk_raw ("example.org", 443%Z) (Seconds 3) None
             [(IPPROTO_TCP, TCP_NODELAY, 1%Z)])
          None None CERT_REQUIRED (Some "/etc/ca.pem") "example.org"
          CERT_NONE].
Proof.
  split; [reflexivity |].
  exact (set_cert_decides_the_wrap
           (HTTPS__init__ VerifiedHTTPS "example.org" None
              (Some "client.key") (Some "client.pem") (Seconds 3) None None)
           Doubles.reachable None None (s_Name "CERT_REQUIRED")
           (Some "/etc/ca.pem") ah_None None CERT_REQUIRED CERT_NONE
           (outside Doubles.reachable) eq_refl eq_refl eq_refl eq_refl).
Defined.

End ConnectionFacts.
